(** * Network failover automation: the failover decision engine

    A shallow embedding of the Python sources

      - [config/router_config.py]      (INTERFACES, PING_TARGETS, THRESHOLDS)
      - [src/router/mikrotik.py]       (class MikrotikClient)
      - [src/router/interfaces.py]     (class InterfaceManager)
      - [src/monitoring/collector.py]  (class NetworkMonitor)
      - [src/monitoring/presistence.py] (the tables of MetricsPersistence)

    Python floats are IEEE 754 binary64 values and are modelled by Rocq's
    primitive floats, Python ints by [Z], [str] by [string], the objects by
    records, and the methods by functions in a small state monad that threads
    the receiver object together with the ambient environment (wall clock,
    log and call trace). *)

From Stdlib Require Import ZArith Floats Lia.
From stdpp Require Import base option list gmap strings pretty.

(* ===================================================================== *)
(** ** Python values *)
(* ===================================================================== *)

Module Py.

(** [float('inf')] *)
Definition inf : float := infinity.

(** [float(n)] for an int [n] with [|n| < 2^63], as the counts and lengths
    converted here are (the conversion below goes through a 63-bit integer
    and does not follow Python beyond); exact whenever [|n| <= 2^53]. *)
Definition float_of_Z (n : Z) : float :=
  if (n <? 0)%Z
  then PrimFloat.opp (PrimFloat.of_uint63 (Uint63Axioms.of_Z (- n)))
  else PrimFloat.of_uint63 (Uint63Axioms.of_Z n).

(** [bool(x)] for a float [x]: every value but the two zeros is truthy. *)
Definition float_truthy (x : float) : bool := negb (PrimFloat.eqb x 0%float).

(** [bool(x)] for [x] a float or [None]. *)
Definition opt_float_truthy (x : option float) : bool :=
  match x with
  | None => false
  | Some t => float_truthy t
  end.

(** [sum(l)] over floats: the accumulator starts at the int [0], which the
    first addition turns into [0.0].  (CPython 3.12 and later compensate
    the rounding error of the running sum; the value below is the plain
    left-to-right sum of the earlier versions.) *)
Definition sum (l : list float) : float := fold_left PrimFloat.add l 0%float.

(** [len(l)] as the float operand of a true division. *)
Definition len {A} (l : list A) : float := float_of_Z (Z.of_nat (length l)).

(** [sum(l) / len(l)] *)
Definition mean (l : list float) : float := PrimFloat.div (sum l) (len l).

(** [needle in hay] on strings: substring test. *)
Fixpoint contains (needle hay : string) : bool :=
  String.prefix needle hay
  || match hay with
     | EmptyString => false
     | String _ hay' => contains needle hay'
     end.

(** [l[-n:]] for a positive [n]: the last [n] elements. *)
Definition last_n {A} (n : nat) (l : list A) : list A := drop (length l - n) l.

(** [l[start:]] for an int [start]: a negative [start] counts from the end,
    and either way it is clipped to the list. *)
Definition slice_from {A} (start : Z) (l : list A) : list A :=
  let n := Z.of_nat (length l) in
  let first := if (start <? 0)%Z then Z.max (start + n) 0 else Z.min start n in
  drop (Z.to_nat first) l.

(** A [dict] with [str] keys whose iteration order matters: the items in
    insertion order. *)
Definition dict (V : Type) : Type := list (string * V).

(** [d.get(k)] *)
Fixpoint dict_get {V} (k : string) (d : dict V) : option V :=
  match d with
  | [] => None
  | (k', v) :: d' => if String.eqb k' k then Some v else dict_get k d'
  end.

(** [d[k] = v]: an existing key keeps its place, a new one goes last. *)
Fixpoint dict_set {V} (k : string) (v : V) (d : dict V) : dict V :=
  match d with
  | [] => [(k, v)]
  | (k', v') :: d' =>
      if String.eqb k' k then (k', v) :: d' else (k', v') :: dict_set k v d'
  end.

Definition dict_keys {V} (d : dict V) : list string := d.*1.

(** The lists that are dicts: no key twice. *)
Definition dict_wf {V} (d : dict V) : Prop := NoDup (dict_keys d).

End Py.

(* ===================================================================== *)
(** ** config/router_config.py *)
(* ===================================================================== *)

Module Config.

Record Interfaces := {
  primary : string;
  secondary : string
}.

Record Thresholds := {
  latency_max : float;          (* Maximum acceptable latency in ms *)
  packet_loss_max : float;      (* Maximum acceptable packet loss in % *)
  check_interval : Z;           (* Check interval in seconds *)
  failover_timeout : float;     (* Time before considering switching back *)
  consecutive_failures : Z      (* Number of consecutive failures before failover *)
}.

Definition INTERFACES : Interfaces :=
  {| primary := "ether1"; secondary := "ether2" |}.

Definition PING_TARGETS : list string := ["8.8.8.8"; "1.1.1.1"].

(** The configured numbers are Python ints; an int compared with a float
    compares as the float of the same value, which is exact for these. *)
Definition THRESHOLDS : Thresholds :=
  {| latency_max := 100%float;
     packet_loss_max := 5%float;
     check_interval := 30;
     failover_timeout := 60%float;
     consecutive_failures := 3 |}.

End Config.

(* ===================================================================== *)
(** ** Data *)
(* ===================================================================== *)

(** The metrics dict built by [get_interface_metrics]. *)
Record InterfaceMetrics := {
  interface : string;
  status : string;
  latency : float;
  packet_loss : float;
  timestamp : float
}.

(** The dict returned by [check_interface_connectivity]. *)
Record PingResult := {
  ping_interface : string;
  ping_target : string;
  sent : Z;
  received : Z;
  ping_packet_loss : float;
  avg_latency : float
}.

(** A row of the [failover_events] table of presistence.py. *)
Record FailoverEvent := {
  ev_timestamp : float;
  ev_from_interface : string;
  ev_to_interface : string;
  ev_reason : option string
}.

(** A row as the device API returns it: a dict of attributes. *)
Abbreviation row := (gmap string string).

(* ===================================================================== *)
(** ** The environment: wall clock, log and call trace *)
(* ===================================================================== *)

Inductive level := DEBUG | INFO | WARNING | ERROR.

(** The log lines of interfaces.py and collector.py, by format string. *)
Inductive message :=
  | Interface_is_down_or_not_found (iface : string)
  | Performing_failover (from_iface to_iface : string)
  | Failover_successful (to_iface : string)
  | Failover_failed (to_iface : string)
  | Primary_healthy_again_switching_back
  | Kedua_interfaces_terdeteksi_down
  | Interface_failure (iface : string) (count : Z) (lat loss : float)
  | Interface_is_healthy_again (iface : string)
  | Interface_metrics_line (iface : string) (lat loss : float)
  | Error_storing_metrics.

(** What a run leaves behind for an observer: the log records, and (as ghost
    events) the calls whose occurrence the properties speak about. *)
Inductive event :=
  | Log (lvl : level) (msg : message)
  | Call_update_routing_priority (iface : string) (new_distance : Z) (result : bool)
  | Call_evaluate_failover_need.

Record Env := {
  clock : nat -> float;     (* the successive readings of time.time() *)
  reads : nat;              (* how many readings were taken *)
  trace : list event        (* oldest first *)
}.

(** A method with receiver [Obj] and result [A]. *)
Definition Prog (Obj A : Type) : Type := Obj * Env -> A * (Obj * Env).

Global Instance Prog_ret {Obj} : MRet (Prog Obj) := fun A (a : A) st => (a, st).

Global Instance Prog_bind {Obj} : MBind (Prog Obj) :=
  fun A B (k : A -> Prog Obj B) (c : Prog Obj A) st => let '(a, st') := c st in k a st'.

Definition get_self {Obj} : Prog Obj Obj := fun st => (st.1, st).

Definition modify_self {Obj} (f : Obj -> Obj) : Prog Obj unit :=
  fun st => (tt, (f st.1, st.2)).

(** [time.time()] *)
Definition time_time {Obj} : Prog Obj float :=
  fun st =>
    let e := st.2 in
    (clock e (reads e),
     (st.1, {| clock := clock e; reads := S (reads e); trace := trace e |})).

Definition emit {Obj} (ev : event) : Prog Obj unit :=
  fun st =>
    let e := st.2 in
    (tt, (st.1, {| clock := clock e; reads := reads e; trace := trace e ++ [ev] |})).

(** [logger.<lvl>(msg)] *)
Definition logger {Obj} (lvl : level) (msg : message) : Prog Obj unit :=
  emit (Log lvl msg).

(** [for x in l: body(x)] *)
Fixpoint for_each {Obj A} (l : list A) (body : A -> Prog Obj unit) : Prog Obj unit :=
  match l with
  | [] => mret tt
  | x :: l' => body x ;; for_each l' body
  end.

(** Run a method of a sub-object held in a field. *)
Definition zoom {Obj T A} (get : Obj -> T) (set : T -> Obj -> Obj) (c : Prog T A) : Prog Obj A :=
  fun st =>
    let '(a, (t', e')) := c (get st.1, st.2) in
    (a, (set t' st.1, e')).

(* ===================================================================== *)
(** ** RouterLink: what the engine asks of the router client *)
(* ===================================================================== *)

Class RouterLink (R : Type) := {
  (** [get_interface_status(name)]: the interface's row, or [None] *)
  get_interface_status : string -> R -> option row * R;
  (** [check_interface_connectivity(interface, target, count)] *)
  check_interface_connectivity : string -> string -> Z -> R -> option PingResult * R;
  (** [update_routing_priority(interface, new_distance)] *)
  update_routing_priority : string -> Z -> R -> bool * R
}.

(* ===================================================================== *)
(** ** src/router/mikrotik.py: class MikrotikClient *)
(* ===================================================================== *)

Module Mikrotik.

(** One row of a ping answer: ['time' in r], and [float(r['time'])]. *)
Record PingReply := { reply_time : option float }.

(** The router as seen through the librouteros API.  A [None] listing is
    a call that raises; the client catches every exception. *)
Record Device := {
  accepts_login : bool;
  interface_rows : option (list row);
  ping_rows : string -> string -> Z -> option (list PingReply);
  route_rows : option (list row);
  route_writable : string -> bool
}.

Record MikrotikClient := {
  api : bool;               (* [self.api] is not None *)
  device : Device
}.

Definition with_route_rows (rows : option (list row)) (d : Device) : Device :=
  {| accepts_login := accepts_login d;
     interface_rows := interface_rows d;
     ping_rows := ping_rows d;
     route_rows := rows;
     route_writable := route_writable d |}.

(** [connect()]: the api is kept when the router accepts the login. *)
Definition connect (c : MikrotikClient) : bool * MikrotikClient :=
  if accepts_login (device c)
  then (true, {| api := true; device := device c |})
  else (false, c).

(** [disconnect()] *)
Definition disconnect (c : MikrotikClient) : MikrotikClient :=
  if api c then {| api := false; device := device c |} else c.

(** [if not self.api: if not self.connect(): ...]: whether an api is at
    hand afterwards. *)
Definition ensure_api (c : MikrotikClient) : bool * MikrotikClient :=
  if api c then (true, c)
  else if accepts_login (device c)
       then (true, {| api := true; device := device c |})
       else (false, c).

Definition get_interfaces (c : MikrotikClient) : list row * MikrotikClient :=
  let '(ok, c) := ensure_api c in
  if ok
  then match interface_rows (device c) with
       | Some rows => (rows, c)
       | None => ([], c)
       end
  else ([], c).

Definition get_interface_status (interface_name : string) (c : MikrotikClient)
  : option row * MikrotikClient :=
  let '(interfaces, c) := get_interfaces c in
  (head (filter (fun r : row => r !! "name" = Some interface_name) interfaces), c).

(** Lines 138-152: the statistics of one ping answer. *)
Definition ping_stats (interface_name target : string) (count : Z)
    (results : list PingReply) : PingResult :=
  let sent := count in
  let received := Z.of_nat (length (filter (fun r => is_Some (reply_time r)) results)) in
  let packet_loss :=
    if (0 <? sent)%Z
    then (Py.float_of_Z (sent - received) / Py.float_of_Z sent * 100)%float
    else 0%float in
  let times := omap reply_time results in
  let avg_time :=
    match times with
    | [] => Py.inf
    | _ => Py.mean times
    end in
  {| ping_interface := interface_name;
     ping_target := target;
     sent := sent;
     received := received;
     ping_packet_loss := packet_loss;
     avg_latency := avg_time |}.

Definition check_interface_connectivity (interface_name target : string)
    (count : Z) (c : MikrotikClient) : option PingResult * MikrotikClient :=
  let '(ok, c) := ensure_api c in
  if ok
  then match ping_rows (device c) target interface_name count with
       | Some results => (Some (ping_stats interface_name target count results), c)
       | None => (None, c)
       end
  else (None, c).

(** [route.get('gateway') and interface_name in route.get('gateway', '')] *)
Definition routes_through (interface_name : string) (route : row) : bool :=
  match route !! "gateway" with
  | Some gw => negb (String.eqb gw EmptyString) && Py.contains interface_name gw
  | None => false
  end.

(** The route table after [ip_route.update] of the route [id] with the
    new [distance]. *)
Definition write_distance (id distance : string) (rows : list row) : list row :=
  (fun r : row =>
     if decide (r !! ".id" = Some id) then <["distance" := distance]> r else r)
    <$> rows.

(** The loop over [target_routes]; [false] when an update raises. *)
Fixpoint update_each (targets : list row) (new_distance : Z) (d : Device)
  : bool * Device :=
  match targets with
  | [] => (true, d)
  | route :: rest =>
      match route !! ".id" with
      | Some id =>
          if route_writable d id
          then update_each rest new_distance
                 (with_route_rows
                    (write_distance id (pretty new_distance) <$> route_rows d) d)
          else (false, d)
      | None => (false, d)
      end
  end.

Definition update_routing_priority (interface_name : string) (new_distance : Z)
    (c : MikrotikClient) : bool * MikrotikClient :=
  let '(ok, c) := ensure_api c in
  if ok
  then match route_rows (device c) with
       | Some routes =>
           let target_routes := filter (fun r => routes_through interface_name r) routes in
           match target_routes with
           | [] => (false, c)
           | _ =>
               let '(done, d) := update_each target_routes new_distance (device c) in
               (done, {| api := api c; device := d |})
           end
       | None => (false, c)
       end
  else (false, c).

(** The client's own log lines (the logger of mikrotik.py) are not part
    of the engine's trace. *)
Global Instance router_link : RouterLink MikrotikClient := {
  get_interface_status := Mikrotik.get_interface_status;
  check_interface_connectivity := Mikrotik.check_interface_connectivity;
  update_routing_priority := Mikrotik.update_routing_priority
}.

End Mikrotik.

(* ===================================================================== *)
(** ** src/router/interfaces.py: class InterfaceManager *)
(* ===================================================================== *)

Record InterfaceManager (R : Type) := {
  router : R;
  primary_interface : string;
  secondary_interface : string;
  current_active : string;
  failover_timestamp : option float
}.

Arguments router {R} _.
Arguments primary_interface {R} _.
Arguments secondary_interface {R} _.
Arguments current_active {R} _.
Arguments failover_timestamp {R} _.

Section InterfaceManager.

Context {R : Type} `{RouterLink R}.

(** The globals imported from config.router_config. *)
Variable PING_TARGETS : list string.
Variable THRESHOLDS : Config.Thresholds.

Abbreviation Manager := (InterfaceManager R).

(** [InterfaceManager(router_client)] *)
Definition InterfaceManager_init (INTERFACES : Config.Interfaces) (router_client : R) : Manager :=
  {| router := router_client;
     primary_interface := Config.primary INTERFACES;
     secondary_interface := Config.secondary INTERFACES;
     current_active := Config.primary INTERFACES;
     failover_timestamp := None |}.

Definition with_router (r : R) (im : Manager) : Manager :=
  {| router := r;
     primary_interface := primary_interface im;
     secondary_interface := secondary_interface im;
     current_active := current_active im;
     failover_timestamp := failover_timestamp im |}.

Definition with_current_active (a : string) (im : Manager) : Manager :=
  {| router := router im;
     primary_interface := primary_interface im;
     secondary_interface := secondary_interface im;
     current_active := a;
     failover_timestamp := failover_timestamp im |}.

Definition with_failover_timestamp (t : option float) (im : Manager) : Manager :=
  {| router := router im;
     primary_interface := primary_interface im;
     secondary_interface := secondary_interface im;
     current_active := current_active im;
     failover_timestamp := t |}.

(** [self.router.<method>(...)] *)
Definition on_router {A} (method : R -> A * R) : Prog Manager A :=
  fun st =>
    let '(a, r') := method (router st.1) in
    (a, (with_router r' st.1, st.2)).

(** [not interface_status or interface_status.get('running') != 'true'] *)
Definition reported_down (interface_status : option row) : bool :=
  match interface_status with
  | None => true
  | Some r => bool_decide (r = ∅) || negb (bool_decide (r !! "running" = Some "true"))
  end.

(** The loop over [PING_TARGETS] of [get_interface_metrics]. *)
Fixpoint ping_each (interface_name : string) (targets : list string)
    (latencies packet_losses : list float)
  : Prog Manager (list float * list float) :=
  match targets with
  | [] => mret (latencies, packet_losses)
  | target :: rest =>
      ping_result ← on_router (check_interface_connectivity interface_name target 5);
      match ping_result with
      | Some r =>
          ping_each interface_name rest
            (latencies ++ [avg_latency r]) (packet_losses ++ [ping_packet_loss r])
      | None => ping_each interface_name rest latencies packet_losses
      end
  end.

Definition get_interface_metrics (interface_name : string)
  : Prog Manager InterfaceMetrics :=
  interface_status ← on_router (get_interface_status interface_name);
  if reported_down interface_status
  then
    logger WARNING (Interface_is_down_or_not_found interface_name);;
    now ← time_time;
    mret {| interface := interface_name;
            status := "down";
            latency := Py.inf;
            packet_loss := 100%float;
            timestamp := now |}
  else
    '(latencies, packet_losses) ← ping_each interface_name PING_TARGETS [] [];
    let avg_latency :=
      match latencies with [] => Py.inf | _ => Py.mean latencies end in
    let avg_packet_loss :=
      match packet_losses with [] => 100%float | _ => Py.mean packet_losses end in
    now ← time_time;
    mret {| interface := interface_name;
            status := "up";
            latency := avg_latency;
            packet_loss := avg_packet_loss;
            timestamp := now |}.

Definition check_interfaces : Prog Manager (Py.dict InterfaceMetrics) :=
  self ← get_self;
  primary_status ← get_interface_metrics (primary_interface self);
  let results := Py.dict_set (primary_interface self) primary_status [] in
  secondary_status ← get_interface_metrics (secondary_interface self);
  mret (Py.dict_set (secondary_interface self) secondary_status results).

(** [metrics] is a metrics dict or [None]. *)
Definition is_interface_healthy (metrics : option InterfaceMetrics) : bool :=
  match metrics with
  | None => false
  | Some m =>
      if String.eqb (status m) "down" then false
      else
        let latency_ok := (latency m <? Config.latency_max THRESHOLDS)%float in
        let packet_loss_ok := (packet_loss m <? Config.packet_loss_max THRESHOLDS)%float in
        latency_ok && packet_loss_ok
  end.

(** [self.router.update_routing_priority(...)], with the call recorded. *)
Definition router_update_routing_priority (interface_name : string)
    (new_distance : Z) : Prog Manager bool :=
  result ← on_router (update_routing_priority interface_name new_distance);
  emit (Call_update_routing_priority interface_name new_distance result);;
  mret result.

Definition perform_failover (from_interface to_interface : string)
  : Prog Manager bool :=
  logger INFO (Performing_failover from_interface to_interface);;
  router_update_routing_priority from_interface 10;;
  success ← router_update_routing_priority to_interface 1;
  if (success : bool)
  then
    modify_self (with_current_active to_interface);;
    now ← time_time;
    modify_self (with_failover_timestamp (Some now));;
    logger INFO (Failover_successful to_interface);;
    mret true
  else
    logger ERROR (Failover_failed to_interface);;
    mret false.

Definition evaluate_failover_need (metrics : Py.dict InterfaceMetrics)
  : Prog Manager (bool * string) :=
  emit Call_evaluate_failover_need;;
  self ← get_self;
  let primary_metrics := Py.dict_get (primary_interface self) metrics in
  let secondary_metrics := Py.dict_get (secondary_interface self) metrics in
  let primary_healthy := is_interface_healthy primary_metrics in
  let secondary_healthy := is_interface_healthy secondary_metrics in
  let current_interface := current_active self in
  let current_metrics := Py.dict_get current_interface metrics in
  let current_healthy := is_interface_healthy current_metrics in
  if current_healthy
  then
    if String.eqb current_interface (secondary_interface self)
       && primary_healthy
       && Py.opt_float_truthy (failover_timestamp self)
    then
      now ← time_time;
      let time_since_failover :=
        (now - default 0 (failover_timestamp self))%float in
      if (Config.failover_timeout THRESHOLDS <? time_since_failover)%float
      then
        logger INFO Primary_healthy_again_switching_back;;
        mret (true, primary_interface self)
      else mret (false, current_interface)
    else mret (false, current_interface)
  else if String.eqb current_interface (primary_interface self) && secondary_healthy
  then mret (true, secondary_interface self)
  else if String.eqb current_interface (secondary_interface self) && primary_healthy
  then mret (true, primary_interface self)
  else if negb primary_healthy && negb secondary_healthy
  then
    logger WARNING Kedua_interfaces_terdeteksi_down;;
    mret (false, current_interface)
  else mret (false, current_interface).

End InterfaceManager.

(* ===================================================================== *)
(** ** src/monitoring/presistence.py: class MetricsPersistence *)
(* ===================================================================== *)

Module Persistence.

(** The database behind [db_path], with the two tables of [_ensure_db]. *)
Record MetricsPersistence := {
  db_writable : bool;                          (* sqlite3 calls do not raise *)
  interface_metrics : list InterfaceMetrics;   (* table interface_metrics, oldest row first *)
  failover_events : list FailoverEvent         (* table failover_events, oldest row first *)
}.

(** Modelled from the spec: the end of [store_metrics], whose text breaks
    off inside the INSERT statement (presistence.py, line 102).  The row is
    inserted and [True] returned; a storage failure is logged and answered
    by [False], never raised. *)
Definition store_metrics (metrics : InterfaceMetrics)
  : Prog MetricsPersistence bool :=
  self ← get_self;
  if db_writable self
  then
    modify_self (fun self =>
      {| db_writable := db_writable self;
         interface_metrics := interface_metrics self ++ [metrics];
         failover_events := failover_events self |});;
    mret true
  else
    logger ERROR Error_storing_metrics;;
    mret false.

End Persistence.

(* ===================================================================== *)
(** ** src/monitoring/collector.py: class NetworkMonitor *)
(* ===================================================================== *)

(** [monitor_thread] and the loop around a round are left out: one round is
    [collect_metrics] followed by [process_metrics]. *)
Record NetworkMonitor (R : Type) := {
  interface_manager : InterfaceManager R;
  persistence : option Persistence.MetricsPersistence;
  metrics_history : gmap string (list InterfaceMetrics);
  is_running : bool;
  consecutive_failures : gmap string Z
}.

Arguments interface_manager {R} _.
Arguments persistence {R} _.
Arguments metrics_history {R} _.
Arguments is_running {R} _.
Arguments consecutive_failures {R} _.

Section NetworkMonitor.

Context {R : Type} `{RouterLink R}.

Variable PING_TARGETS : list string.
Variable THRESHOLDS : Config.Thresholds.

Abbreviation Monitor := (NetworkMonitor R).

(** [NetworkMonitor(interface_manager, persistence)] *)
Definition NetworkMonitor_init (manager : InterfaceManager R)
    (store : option Persistence.MetricsPersistence) : Monitor :=
  {| interface_manager := manager;
     persistence := store;
     metrics_history := ∅;
     is_running := false;
     consecutive_failures := ∅ |}.

Definition with_interface_manager (im : InterfaceManager R) (self : Monitor) : Monitor :=
  {| interface_manager := im;
     persistence := persistence self;
     metrics_history := metrics_history self;
     is_running := is_running self;
     consecutive_failures := consecutive_failures self |}.

Definition with_persistence (p : option Persistence.MetricsPersistence)
    (self : Monitor) : Monitor :=
  {| interface_manager := interface_manager self;
     persistence := p;
     metrics_history := metrics_history self;
     is_running := is_running self;
     consecutive_failures := consecutive_failures self |}.

Definition with_metrics_history (h : gmap string (list InterfaceMetrics))
    (self : Monitor) : Monitor :=
  {| interface_manager := interface_manager self;
     persistence := persistence self;
     metrics_history := h;
     is_running := is_running self;
     consecutive_failures := consecutive_failures self |}.

Definition with_consecutive_failures (c : gmap string Z) (self : Monitor) : Monitor :=
  {| interface_manager := interface_manager self;
     persistence := persistence self;
     metrics_history := metrics_history self;
     is_running := is_running self;
     consecutive_failures := c |}.

(** [self.interface_manager.<method>(...)] *)
Definition on_manager {A} (method : Prog (InterfaceManager R) A) : Prog Monitor A :=
  zoom interface_manager with_interface_manager method.

(** [if self.persistence: self.persistence.<method>(...)] *)
Definition if_persistence {A} (method : Prog Persistence.MetricsPersistence A)
  : Prog Monitor unit :=
  fun st =>
    match persistence st.1 with
    | Some p =>
        let '(_, (p', e')) := method (p, st.2) in
        (tt, (with_persistence (Some p') st.1, e'))
    | None => (tt, st)
    end.

(** Lines 100-112: the history of [interface] after one more entry. *)
Definition remember (interface : string) (interface_metrics : InterfaceMetrics)
    (history : gmap string (list InterfaceMetrics))
  : gmap string (list InterfaceMetrics) :=
  let history :=
    match history !! interface with
    | Some _ => history
    | None => <[interface := []]> history
    end in
  let history := <[interface := history !!! interface ++ [interface_metrics]]> history in
  if decide (1000 < length (history !!! interface))
  then <[interface := Py.last_n 1000 (history !!! interface)]> history
  else history.

(** The body of the loop of [collect_metrics].  The [timestamp] key is
    always present in the metrics built by [get_interface_metrics], so the
    branch that adds it is never taken. *)
Definition record_metrics (interface : string) (interface_metrics : InterfaceMetrics)
  : Prog Monitor unit :=
  modify_self (fun self =>
    with_metrics_history
      (remember interface interface_metrics (metrics_history self)) self);;
  if_persistence (Persistence.store_metrics interface_metrics);;
  logger DEBUG
    (Interface_metrics_line interface
       (latency interface_metrics) (packet_loss interface_metrics)).

Definition collect_metrics : Prog Monitor (Py.dict InterfaceMetrics) :=
  metrics ← on_manager (check_interfaces PING_TARGETS);
  timestamp ← time_time;
  for_each metrics (fun '(interface, interface_metrics) =>
    record_metrics interface interface_metrics);;
  mret metrics.

(** The body of the first loop of [process_metrics]. *)
Definition track_failures (interface : string) (interface_metrics : InterfaceMetrics)
  : Prog Monitor unit :=
  let is_healthy := is_interface_healthy THRESHOLDS (Some interface_metrics) in
  modify_self (fun self =>
    match consecutive_failures self !! interface with
    | Some _ => self
    | None => with_consecutive_failures (<[interface := 0%Z]> (consecutive_failures self)) self
    end);;
  if negb is_healthy
  then
    modify_self (fun self =>
      with_consecutive_failures
        (<[interface := (consecutive_failures self !!! interface + 1)%Z]>
           (consecutive_failures self)) self);;
    self ← get_self;
    logger WARNING
      (Interface_failure interface (consecutive_failures self !!! interface)
         (latency interface_metrics) (packet_loss interface_metrics))
  else
    self ← get_self;
    if (0 <? consecutive_failures self !!! interface)%Z
    then
      logger INFO (Interface_is_healthy_again interface);;
      modify_self (fun self =>
        with_consecutive_failures
          (<[interface := 0%Z]> (consecutive_failures self)) self)
    else mret tt.

(** [current_active in self.consecutive_failures and
     self.consecutive_failures[current_active] >= THRESHOLDS['consecutive_failures']] *)
Definition gate (self : Monitor) (current_active : string) : bool :=
  match consecutive_failures self !! current_active with
  | Some n => (Config.consecutive_failures THRESHOLDS <=? n)%Z
  | None => false
  end.

Definition process_metrics (metrics : Py.dict InterfaceMetrics) : Prog Monitor unit :=
  for_each metrics (fun '(interface, interface_metrics) =>
    track_failures interface interface_metrics);;
  self ← get_self;
  let current_active := current_active (interface_manager self) in
  if gate self current_active
  then
    '(need_failover, target_interface) ←
      on_manager (evaluate_failover_need THRESHOLDS metrics);
    if (need_failover : bool) && negb (String.eqb target_interface current_active)
    then
      on_manager (perform_failover current_active target_interface);;
      modify_self (fun self =>
        with_consecutive_failures
          (<[current_active := 0%Z]> (consecutive_failures self)) self)
    else mret tt
  else mret tt.

(** [get_latest_metrics()]: the last entry of every history that has one. *)
Definition get_latest_metrics (self : Monitor) : gmap string InterfaceMetrics :=
  omap last (metrics_history self).

(** [history[-limit:] if history else []] *)
Definition recent (limit : Z) (history : list InterfaceMetrics) : list InterfaceMetrics :=
  match history with
  | [] => []
  | _ => Py.slice_from (- limit) history
  end.

(** [get_metrics_history(interface, limit)]: a list for one interface, a
    dict of lists when [interface] is [None] or the empty string. *)
Definition get_metrics_history (interface : option string) (limit : Z) (self : Monitor)
  : list InterfaceMetrics + gmap string (list InterfaceMetrics) :=
  match interface with
  | Some name =>
      if String.eqb name EmptyString
      then inr (recent limit <$> metrics_history self)
      else inl (recent limit (default [] (metrics_history self !! name)))
  | None => inr (recent limit <$> metrics_history self)
  end.

(** One pass of the body of [_monitoring_loop]. *)
Definition monitoring_round : Prog Monitor unit :=
  metrics ← collect_metrics;
  process_metrics metrics.

End NetworkMonitor.

(* ===================================================================== *)
(** ** Observing a run *)
(* ===================================================================== *)

(** The environment after the events [delta] were logged, oldest first. *)
Definition add_events (delta : list event) (e : Env) : Env :=
  {| clock := clock e; reads := reads e; trace := trace e ++ delta |}.

(** [e'] continues [e] by the events [delta]. *)
Definition trace_since (e e' : Env) (delta : list event) : Prop :=
  trace e' = trace e ++ delta.

Definition is_router_call (ev : event) : bool :=
  match ev with
  | Call_update_routing_priority _ _ _ => true
  | _ => false
  end.

Definition is_evaluation (ev : event) : bool :=
  match ev with
  | Call_evaluate_failover_need => true
  | _ => false
  end.

Definition is_log (ev : event) : bool :=
  match ev with
  | Log _ _ => true
  | _ => false
  end.

Definition is_warning (ev : event) : bool :=
  match ev with
  | Log WARNING _ => true
  | _ => false
  end.


Section Observations.

Context {R : Type} `{RouterLink R}.
Variable THRESHOLDS : Config.Thresholds.

(** The two router calls of [perform_failover], in the order they are
    made: the second one sees the router as the first one left it. *)
Definition demote (from_interface : string) (im : InterfaceManager R) : bool * R :=
  update_routing_priority from_interface 10 (router im).

Definition promote (from_interface to_interface : string) (im : InterfaceManager R)
  : bool * R :=
  update_routing_priority to_interface 1 (demote from_interface im).2.

(** The failure count of an interface after one more reading, [n] being
    the count before (0 when the interface was not counted yet). *)
Definition count_after (healthy : bool) (n : Z) : Z :=
  if healthy then (if (0 <? n)%Z then 0 else n) else (n + 1)%Z.

(** The counters after the loop body of [process_metrics] ran once. *)
Definition tracked (interface : string) (m : InterfaceMetrics)
    (counters : gmap string Z) : gmap string Z :=
  <[interface := count_after (is_interface_healthy THRESHOLDS (Some m))
                   (default 0%Z (counters !! interface))]> counters.

(** What that run of the loop body logs. *)
Definition tracked_events (interface : string) (m : InterfaceMetrics)
    (counters : gmap string Z) : list event :=
  let n := default 0%Z (counters !! interface) in
  if is_interface_healthy THRESHOLDS (Some m)
  then (if (0 <? n)%Z then [Log INFO (Interface_is_healthy_again interface)] else [])
  else [Log WARNING (Interface_failure interface (n + 1) (latency m) (packet_loss m))].

(** The same for the whole loop. *)
Fixpoint tracked_all (metrics : Py.dict InterfaceMetrics) (counters : gmap string Z)
  : gmap string Z :=
  match metrics with
  | [] => counters
  | (interface, m) :: rest => tracked_all rest (tracked interface m counters)
  end.

Fixpoint tracked_all_events (metrics : Py.dict InterfaceMetrics)
    (counters : gmap string Z) : list event :=
  match metrics with
  | [] => []
  | (interface, m) :: rest =>
      tracked_events interface m counters
      ++ tracked_all_events rest (tracked interface m counters)
  end.

(** The monitor and the environment after the counting loop. *)
Definition counted (metrics : Py.dict InterfaceMetrics) (st : NetworkMonitor R * Env)
  : NetworkMonitor R * Env :=
  (with_consecutive_failures (tracked_all metrics (consecutive_failures st.1)) st.1,
   add_events (tracked_all_events metrics (consecutive_failures st.1)) st.2).

(** Successive rounds of [process_metrics], one metrics dict per round. *)
Fixpoint run_rounds (rounds : list (Py.dict InterfaceMetrics))
    (st : NetworkMonitor R * Env) : NetworkMonitor R * Env :=
  match rounds with
  | [] => st
  | metrics :: rest => run_rounds rest (process_metrics THRESHOLDS metrics st).2
  end.

(** [n] passes of the monitoring loop. *)
Fixpoint run_monitoring (PING_TARGETS : list string) (n : nat)
    (st : NetworkMonitor R * Env) : NetworkMonitor R * Env :=
  match n with
  | 0 => st
  | S n' => run_monitoring PING_TARGETS n' (monitoring_round PING_TARGETS THRESHOLDS st).2
  end.

(** The active interface is one of the two configured ones. *)
Definition active_is_configured (im : InterfaceManager R) : Prop :=
  current_active im = primary_interface im \/ current_active im = secondary_interface im.

(** No failure count is negative. *)
Definition counts_non_negative (self : NetworkMonitor R) : Prop :=
  map_Forall (fun _ n => (0 <= n)%Z) (consecutive_failures self).

(** The failure count of [interface], 0 when it was never counted. *)
Definition failure_count (self : NetworkMonitor R) (interface : string) : Z :=
  default 0%Z (consecutive_failures self !! interface).

(** The failure count of [interface] on which the gate of a round decides:
    the count once the round's reading of it, if any, was taken in. *)
Definition count_at_gate (self : NetworkMonitor R)
    (metrics : Py.dict InterfaceMetrics) (interface : string) : Z :=
  match Py.dict_get interface metrics with
  | Some m =>
      count_after (is_interface_healthy THRESHOLDS (Some m))
        (failure_count self interface)
  | None => failure_count self interface
  end.


End Observations.

(** What the router answers to the ping tests of [get_interface_metrics],
    target by target, and the router afterwards. *)
Fixpoint ping_answers {R : Type} `{RouterLink R} (interface_name : string)
    (targets : list string) (r : R) : list (option PingResult) * R :=
  match targets with
  | [] => ([], r)
  | target :: rest =>
      let '(answer, r') := check_interface_connectivity interface_name target 5 r in
      let '(answers, r'') := ping_answers interface_name rest r' in
      (answer :: answers, r'')
  end.

(** The aggregate of the per-target values: their mean, or [otherwise]
    when there is none. *)
Definition aggregate (otherwise : float) (values : list float) : float :=
  match values with
  | [] => otherwise
  | _ => Py.mean values
  end.

(** The histories after the storing loop of [collect_metrics]. *)
Fixpoint remember_all (metrics : Py.dict InterfaceMetrics)
    (history : gmap string (list InterfaceMetrics))
  : gmap string (list InterfaceMetrics) :=
  match metrics with
  | [] => history
  | (interface, m) :: rest => remember_all rest (remember interface m history)
  end.

(** No history is longer than the cap. *)
Definition bounded (history : gmap string (list InterfaceMetrics)) : Prop :=
  map_Forall (fun _ h => length h <= 1000) history.

(** What holds of a monitor between two passes of the monitoring loop: the
    configured names are [names], the active interface is one of them, no
    failure count is negative and no history is longer than the cap. *)
Definition loop_invariant {R} (names : string * string) (self : NetworkMonitor R) : Prop :=
  primary_interface (interface_manager self) = names.1
  /\ secondary_interface (interface_manager self) = names.2
  /\ active_is_configured (interface_manager self)
  /\ counts_non_negative self
  /\ bounded (metrics_history self).

(* ===================================================================== *)
(** ** A laboratory: concrete routers, readings and clocks *)
(* ===================================================================== *)

Module Lab.

Import Mikrotik.

Definition running_interface (name : string) : row :=
  <["name" := name]> (<["running" := "true"]> ∅).

Definition stopped_interface (name : string) : row :=
  <["name" := name]> (<["running" := "false"]> ∅).

Definition route (id gateway : string) : row :=
  <[".id" := id]> (<["gateway" := gateway]> (<["distance" := "1"]> ∅)).

Definition answered (times : list float) : list PingReply :=
  (fun t => {| reply_time := Some t |}) <$> times.

Definition timed_out (n : nat) : list PingReply :=
  replicate n {| reply_time := None |}.

(** Every target answers every ping in 20 ms. *)
Definition good_pings : string -> string -> Z -> option (list PingReply) :=
  fun _ _ count => Some (answered (replicate (Z.to_nat count) 20%float)).

Definition device_with (interfaces routes : list row)
    (pings : string -> string -> Z -> option (list PingReply)) : Device :=
  {| accepts_login := true;
     interface_rows := Some interfaces;
     ping_rows := pings;
     route_rows := Some routes;
     route_writable := fun _ => true |}.

Definition client_of (d : Device) : MikrotikClient := {| api := false; device := d |}.

(** Both interfaces run and both have a default route. *)
Definition both_routed : MikrotikClient :=
  client_of (device_with
    [running_interface "ether1"; running_interface "ether2"]
    [route "*1" "ether1"; route "*2" "ether2"] good_pings).

(** ether1 is stopped; both have a default route. *)
Definition primary_stopped : MikrotikClient :=
  client_of (device_with
    [stopped_interface "ether1"; running_interface "ether2"]
    [route "*1" "ether1"; route "*2" "ether2"] good_pings).

(** ether1 is stopped and only ether1 has a default route: raising the
    priority of ether2 finds no route and fails. *)
Definition primary_stopped_secondary_unrouted : MikrotikClient :=
  client_of (device_with
    [stopped_interface "ether1"; running_interface "ether2"]
    [route "*1" "ether1"] good_pings).

(** Only ether2 has a default route: lowering the priority of ether1
    finds no route and fails. *)
Definition primary_unrouted : MikrotikClient :=
  client_of (device_with
    [running_interface "ether1"; running_interface "ether2"]
    [route "*2" "ether2"] good_pings).

(** 8.8.8.8 answers in 20 ms, 1.1.1.1 does not answer at all. *)
Definition one_target_silent : MikrotikClient :=
  client_of (device_with
    [running_interface "ether1"; running_interface "ether2"]
    [route "*1" "ether1"; route "*2" "ether2"]
    (fun address _ count =>
       if String.eqb address "8.8.8.8"
       then Some (answered (replicate (Z.to_nat count) 20%float))
       else Some (timed_out (Z.to_nat count)))).

(** A router that refuses the login. *)
Definition unplugged : MikrotikClient :=
  {| api := false;
     device := {| accepts_login := false;
                  interface_rows := Some [running_interface "ether1"; running_interface "ether2"];
                  ping_rows := good_pings;
                  route_rows := Some [route "*1" "ether1"; route "*2" "ether2"];
                  route_writable := fun _ => true |} |}.

(** Gateway and distance of each route of the client's device. *)
Definition route_table (c : MikrotikClient) : list (option string * option string) :=
  match route_rows (device c) with
  | Some routes => (fun r : row => (r !! "gateway", r !! "distance")) <$> routes
  | None => []
  end.

(** A clock that shows [t] at every reading. *)
Definition at_time (t : float) : Env :=
  {| clock := fun _ => t; reads := 0; trace := [] |}.

(** A clock that starts at [t] and is one second further at every reading. *)
Definition ticking (t : float) : Env :=
  {| clock := fun n => (t + Py.float_of_Z (Z.of_nat n))%float; reads := 0; trace := [] |}.

Definition healthy_reading (name : string) (t : float) : InterfaceMetrics :=
  {| interface := name; status := "up"; latency := 20%float;
     packet_loss := 0%float; timestamp := t |}.

Definition down_reading (name : string) (t : float) : InterfaceMetrics :=
  {| interface := name; status := "down"; latency := Py.inf;
     packet_loss := 100%float; timestamp := t |}.

(** Latency exactly at the configured maximum. *)
Definition boundary_reading (name : string) (t : float) : InterfaceMetrics :=
  {| interface := name; status := "up"; latency := 100%float;
     packet_loss := 0%float; timestamp := t |}.

Definition readings (primary secondary : InterfaceMetrics) : Py.dict InterfaceMetrics :=
  [("ether1", primary); ("ether2", secondary)].

Definition manager (c : MikrotikClient) : InterfaceManager MikrotikClient :=
  InterfaceManager_init Config.INTERFACES c.

(** The manager after a failover to ether2 at time [t]. *)
Definition manager_on_secondary (c : MikrotikClient) (t : float)
  : InterfaceManager MikrotikClient :=
  with_failover_timestamp (Some t) (with_current_active "ether2" (manager c)).

(** A monitor whose history of ether1 is full: 1000 readings taken at
    time 0. *)
Definition monitor_with_full_history (c : MikrotikClient)
  : NetworkMonitor MikrotikClient :=
  with_metrics_history
    (<["ether1" := replicate 1000 (healthy_reading "ether1" 0)]> ∅)
    (NetworkMonitor_init (manager c) None).

Definition empty_store : Persistence.MetricsPersistence :=
  {| Persistence.db_writable := true;
     Persistence.interface_metrics := [];
     Persistence.failover_events := [] |}.

(** A monitor fresh from its constructor, with a store. *)
Definition monitor (c : MikrotikClient) : NetworkMonitor MikrotikClient :=
  NetworkMonitor_init (manager c) (Some empty_store).

(** ether1 is reported down, ether2 is healthy. *)
Definition primary_down (t : float) : Py.dict InterfaceMetrics :=
  readings (down_reading "ether1" t) (healthy_reading "ether2" t).

Definition both_healthy (t : float) : Py.dict InterfaceMetrics :=
  readings (healthy_reading "ether1" t) (healthy_reading "ether2" t).

Definition both_down (t : float) : Py.dict InterfaceMetrics :=
  readings (down_reading "ether1" t) (down_reading "ether2" t).

(** The monitor carried into a later tick, whose clock shows [t]. *)
Definition later (t : float) (st : NetworkMonitor MikrotikClient * Env)
  : NetworkMonitor MikrotikClient * Env :=
  (st.1, at_time t).

End Lab.

(* ===================================================================== *)
(** ** What the specification asks for, in its own words *)
(* ===================================================================== *)

(** "the arithmetic mean of the per-target average latencies taken only
    over targets that yielded at least one successful ping", +inf "if no
    target yields data": [per_target] holds the ping answer of each target. *)
Definition mean_over_answering_targets (per_target : list (list Mikrotik.PingReply))
  : float :=
  let successful :=
    filter (fun times : list float => times <> [])
      (omap Mikrotik.reply_time <$> per_target) in
  aggregate Py.inf (Py.mean <$> successful).

(** "a FailoverEvent {timestamp, from_interface, to_interface, reason} is
    recorded to the MetricsSink": the store holds a row for the switch. *)
Definition failover_event_recorded (store : option Persistence.MetricsPersistence)
    (t : float) (from_interface to_interface : string) : Prop :=
  exists p ev,
    store = Some p
    /\ ev ∈ Persistence.failover_events p
    /\ ev_timestamp ev = t
    /\ ev_from_interface ev = from_interface
    /\ ev_to_interface ev = to_interface.



(* ===================================================================== *)
(** ** Observing the route table *)
(* ===================================================================== *)

(** [r'] is the route [r] after updates of its distance to [distance]:
    every other attribute is as it was, and the distance is the old one or
    the new one. *)
Definition rewritten (distance : string) (r r' : row) : Prop :=
  (forall k, k <> "distance" -> r' !! k = r !! k)
  /\ (r' !! "distance" = r !! "distance" \/ r' !! "distance" = Some distance).

(** The client cannot reach the router: no api at hand and the login is
    refused. *)
Definition unreachable (c : Mikrotik.MikrotikClient) : Prop :=
  Mikrotik.api c = false /\ Mikrotik.accepts_login (Mikrotik.device c) = false.

(** The partner of [interface] among the two configured interfaces. *)
Definition other_interface {R} (im : InterfaceManager R) (interface : string) : string :=
  if String.eqb interface (primary_interface im)
  then secondary_interface im
  else primary_interface im.

(** [n] calls of [collect_metrics]. *)
Fixpoint run_collect {R} `{RouterLink R} (PING_TARGETS : list string) (n : nat)
    (st : NetworkMonitor R * Env) : NetworkMonitor R * Env :=
  match n with
  | 0 => st
  | S n' => run_collect PING_TARGETS n' (collect_metrics PING_TARGETS st).2
  end.
(* ===================================================================== *)
(** ** Running the methods *)
(* ===================================================================== *)

Ltac unfold_prog :=
  unfold mbind, Prog_bind, mret, Prog_ret, modify_self, get_self, logger, emit,
    time_time, zoom in *.

Arguments is_interface_healthy : simpl never.

Lemma env_eta (e : Env) :
  {| clock := clock e; reads := reads e; trace := trace e |} = e.
Proof. by destruct e. Qed.

Lemma add_events_nil e : add_events [] e = e.
Proof. unfold add_events. rewrite app_nil_r. apply env_eta. Qed.

Lemma add_events_app d1 d2 e : add_events d2 (add_events d1 e) = add_events (d1 ++ d2) e.
Proof. unfold add_events. simpl. by rewrite app_assoc. Qed.

Lemma trace_since_add d e : trace_since e (add_events d e) d.
Proof. done. Qed.


Lemma trace_since_trans e1 e2 e3 d1 d2 :
  trace_since e1 e2 d1 -> trace_since e2 e3 d2 -> trace_since e1 e3 (d1 ++ d2).
Proof. unfold trace_since. intros -> ->. by rewrite app_assoc. Qed.

Section ManagerFacts.

Context {R : Type} `{RouterLink R}.
Variable THRESHOLDS : Config.Thresholds.

Lemma perform_failover_run (im : InterfaceManager R) (e : Env) from_interface to_interface :
  perform_failover from_interface to_interface (im, e) =
    let b1 := (demote from_interface im).1 in
    let '(b2, r2) := promote from_interface to_interface im in
    if b2
    then (true,
          ({| router := r2;
              primary_interface := primary_interface im;
              secondary_interface := secondary_interface im;
              current_active := to_interface;
              failover_timestamp := Some (clock e (reads e)) |},
           {| clock := clock e;
              reads := S (reads e);
              trace := trace e ++
                [Log INFO (Performing_failover from_interface to_interface);
                 Call_update_routing_priority from_interface 10 b1;
                 Call_update_routing_priority to_interface 1 true;
                 Log INFO (Failover_successful to_interface)] |}))
    else (false,
          (with_router r2 im,
           add_events
             [Log INFO (Performing_failover from_interface to_interface);
              Call_update_routing_priority from_interface 10 b1;
              Call_update_routing_priority to_interface 1 false;
              Log ERROR (Failover_failed to_interface)] e)).
Proof.
  unfold perform_failover, router_update_routing_priority, on_router, promote, demote,
    add_events.
  unfold_prog. simpl.
  destruct (update_routing_priority from_interface 10 (router im)) as [b1 r1]; simpl.
  destruct (update_routing_priority to_interface 1 r1) as [[] r2]; simpl;
    by rewrite <- !app_assoc.
Qed.

(** [evaluate_failover_need] only reads the manager. *)
Lemma evaluate_failover_need_manager (im : InterfaceManager R) e metrics :
  (evaluate_failover_need THRESHOLDS metrics (im, e)).2.1 = im.
Proof.
  unfold evaluate_failover_need. unfold_prog. simpl.
  repeat (case_match; simpl; try done).
Qed.

(** It records its call first and then logs at most one line. *)
Lemma evaluate_failover_need_trace (im : InterfaceManager R) e metrics :
  exists delta,
    trace_since e (evaluate_failover_need THRESHOLDS metrics (im, e)).2.2
      (Call_evaluate_failover_need :: delta)
    /\ Forall (fun ev => is_log ev = true) delta.
Proof.
  unfold evaluate_failover_need, trace_since. unfold_prog. simpl.
  repeat (case_match; simpl);
    first [ by exists [] | rewrite <- app_assoc; eexists; split; [done|]; by repeat constructor ].
Qed.

End ManagerFacts.

Section MonitorFacts.

Context {R : Type} `{RouterLink R}.
Variable THRESHOLDS : Config.Thresholds.

Lemma with_consecutive_failures_id (self : NetworkMonitor R) :
  with_consecutive_failures (consecutive_failures self) self = self.
Proof. by destruct self. Qed.

(** One pass of the loop body is [tracked], logging [tracked_events]. *)
Lemma track_failures_run interface m (self : NetworkMonitor R) e :
  track_failures THRESHOLDS interface m (self, e) =
    (tt, (with_consecutive_failures
            (tracked THRESHOLDS interface m (consecutive_failures self)) self,
          add_events (tracked_events THRESHOLDS interface m (consecutive_failures self)) e)).
Proof.
  unfold track_failures, tracked, tracked_events, count_after, add_events.
  generalize (is_interface_healthy THRESHOLDS (Some m)). intros healthy.
  unfold_prog. simpl.
  destruct healthy; simpl;
    destruct (consecutive_failures self !! interface) as [n|] eqn:E; simpl.
  - rewrite lookup_total_alt, E. simpl.
    destruct (0 <? n)%Z; simpl.
    + done.
    + rewrite (insert_id _ _ _ E), app_nil_r, env_eta.
      by rewrite with_consecutive_failures_id.
  - rewrite lookup_total_insert_eq. simpl. by rewrite app_nil_r, env_eta.
  - rewrite lookup_total_insert_eq, lookup_total_alt, E. done.
  - rewrite !lookup_total_insert_eq. by rewrite insert_insert_eq.
Qed.

(** The whole loop. *)
Lemma track_loop_run metrics (st : NetworkMonitor R * Env) :
  for_each metrics
    (fun '(interface, interface_metrics) =>
       track_failures THRESHOLDS interface interface_metrics) st
  = (tt, counted THRESHOLDS metrics st).
Proof.
  revert st. induction metrics as [|[i m] rest IH]; intros [self e]; simpl.
  - unfold counted. simpl. by rewrite with_consecutive_failures_id, add_events_nil.
  - unfold mbind, Prog_bind. rewrite track_failures_run, IH.
    unfold counted. simpl. by rewrite add_events_app.
Qed.

(** A round, with the loop summarised. *)
Lemma process_metrics_run metrics (st : NetworkMonitor R * Env) :
  process_metrics THRESHOLDS metrics st =
    let st1 := counted THRESHOLDS metrics st in
    let current := current_active (interface_manager st.1) in
    if gate THRESHOLDS st1.1 current
    then
      let '((need, target), (im2, e2)) :=
        evaluate_failover_need THRESHOLDS metrics (interface_manager st.1, st1.2) in
      if need && negb (String.eqb target current)
      then
        let '(_, (im3, e3)) := perform_failover current target (im2, e2) in
        (tt, (with_consecutive_failures
                (<[current := 0%Z]> (consecutive_failures st1.1))
                (with_interface_manager im3 st1.1), e3))
      else (tt, (with_interface_manager im2 st1.1, e2))
    else (tt, st1).
Proof.
  unfold process_metrics. unfold mbind at 1. unfold Prog_bind at 1.
  rewrite track_loop_run.
  destruct st as [self e]. unfold counted. simpl.
  unfold_prog. simpl. unfold on_manager. unfold_prog. simpl.
  case_match; [|done].
  destruct (evaluate_failover_need _ _ _) as [[need target] [im2 e2]]. simpl.
  case_match; [|done].
  destruct (perform_failover _ _ _) as [b [im3 e3]]. done.
Qed.

End MonitorFacts.

(* ===================================================================== *)
(** ** Floats *)
(* ===================================================================== *)

Lemma SFcompare_refl_not_Lt (a : spec_float) : SFcompare a a <> Some Lt.
Proof.
  destruct a as [s|s| |s m e]; simpl; [done | by destruct s | done |].
  change (PosDef.Pos.compare_cont Eq m m) with (m ?= m)%positive.
  rewrite Z.compare_refl, Pos.compare_refl. by destruct s.
Qed.

(** A float is not below a float it equals: neither for [==] (which also
    identifies the two zeros) nor for the very same value. *)
Lemma float_ltb_irrefl (x y : float) :
  (x =? y)%float = true \/ x = y -> (x <? y)%float = false.
Proof.
  rewrite FloatAxioms.ltb_spec, FloatAxioms.eqb_spec. unfold SFltb, SFeqb.
  intros [E | ->].
  - by destruct (SFcompare (Prim2SF x) (Prim2SF y)) as [[]|].
  - pose proof (SFcompare_refl_not_Lt (Prim2SF y)).
    by destruct (SFcompare (Prim2SF y) (Prim2SF y)) as [[]|].
Qed.

(* ===================================================================== *)
(** ** Dicts and the counting loop *)
(* ===================================================================== *)

Lemma dict_get_None {V} (k : string) (d : Py.dict V) :
  k ∉ Py.dict_keys d -> Py.dict_get k d = None.
Proof.
  induction d as [|[k' v] d IH]; simpl; [done|].
  intros Hk. apply not_elem_of_cons in Hk as [Hne Hk].
  destruct (String.eqb_spec k' k); [congruence|]. by apply IH.
Qed.

Lemma dict_get_set_eq {V} (k : string) (v : V) (d : Py.dict V) :
  Py.dict_get k (Py.dict_set k v d) = Some v.
Proof.
  induction d as [|[k' v'] d IH]; simpl.
  - by rewrite String.eqb_refl.
  - destruct (String.eqb_spec k' k) as [->|Hne]; simpl.
    + by rewrite String.eqb_refl.
    + by destruct (String.eqb_spec k' k).
Qed.

Lemma dict_get_set_ne {V} (k k' : string) (v : V) (d : Py.dict V) :
  k <> k' -> Py.dict_get k (Py.dict_set k' v d) = Py.dict_get k d.
Proof.
  intros Hne. induction d as [|[k0 v0] d IH]; simpl.
  - by destruct (String.eqb_spec k' k).
  - destruct (String.eqb_spec k0 k') as [->|Hne0]; simpl.
    + by destruct (String.eqb_spec k' k).
    + by rewrite IH.
Qed.

Lemma dict_keys_set {V} (k : string) (v : V) (d : Py.dict V) :
  Py.dict_keys (Py.dict_set k v d)
  = if bool_decide (k ∈ Py.dict_keys d) then Py.dict_keys d else Py.dict_keys d ++ [k].
Proof.
  unfold Py.dict_keys. induction d as [|[k' v'] d IH]; csimpl; [done|].
  destruct (String.eqb_spec k' k) as [->|Hne]; csimpl.
  - rewrite bool_decide_eq_true_2; [done|]. by left.
  - rewrite IH. case_bool_decide as Hin.
    + rewrite bool_decide_eq_true_2; [done|]. by right.
    + rewrite bool_decide_eq_false_2; [done|].
      intros [?|?]%elem_of_cons; congruence.
Qed.

Lemma dict_set_wf {V} (k : string) (v : V) (d : Py.dict V) :
  Py.dict_wf d -> Py.dict_wf (Py.dict_set k v d).
Proof.
  unfold Py.dict_wf. intros Hwf. rewrite dict_keys_set.
  case_bool_decide as Hin; [done|].
  apply NoDup_app. split; [done|]. split; [|apply NoDup_singleton].
  intros x Hx ->%list_elem_of_singleton. done.
Qed.

Section CountingFacts.

Variable THRESHOLDS : Config.Thresholds.

(** In a dict, every interface is counted once. *)
Lemma tracked_all_lookup (metrics : Py.dict InterfaceMetrics)
    (counters : gmap string Z) (k : string) :
  Py.dict_wf metrics ->
  tracked_all THRESHOLDS metrics counters !! k =
    match Py.dict_get k metrics with
    | Some m =>
        Some (count_after (is_interface_healthy THRESHOLDS (Some m))
                (default 0%Z (counters !! k)))
    | None => counters !! k
    end.
Proof.
  unfold Py.dict_wf, Py.dict_keys.
  revert counters. induction metrics as [|[i m] rest IH]; intros counters Hwf; [done|].
  csimpl in *. apply NoDup_cons in Hwf as [Hi Hwf].
  rewrite (IH _ Hwf). unfold tracked.
  destruct (String.eqb_spec i k) as [->|Hne].
  - rewrite (dict_get_None k rest Hi). by rewrite lookup_insert_eq.
  - by rewrite lookup_insert_ne.
Qed.

(** The loop only logs. *)
Lemma tracked_all_events_log (metrics : Py.dict InterfaceMetrics)
    (counters : gmap string Z) :
  Forall (fun ev => is_log ev = true) (tracked_all_events THRESHOLDS metrics counters).
Proof.
  revert counters. induction metrics as [|[i m] rest IH]; intros counters; simpl.
  - constructor.
  - apply Forall_app. split; [|apply IH].
    unfold tracked_events. repeat case_match; by repeat constructor.
Qed.

(** It logs a warning for an interface it finds unhealthy. *)
Lemma tracked_all_events_warning (metrics : Py.dict InterfaceMetrics)
    (counters : gmap string Z) (k : string) (m : InterfaceMetrics) :
  Py.dict_get k metrics = Some m ->
  is_interface_healthy THRESHOLDS (Some m) = false ->
  Exists (fun ev => is_warning ev = true) (tracked_all_events THRESHOLDS metrics counters).
Proof.
  revert counters. induction metrics as [|[i m'] rest IH]; intros counters; simpl; [done|].
  destruct (String.eqb_spec i k) as [->|Hne].
  - intros [= ->] Hbad. apply Exists_app. left.
    unfold tracked_events. rewrite Hbad. by constructor.
  - intros Hget Hbad. apply Exists_app. right. by apply IH.
Qed.


End CountingFacts.

Section RoundFacts.

Context {R : Type} `{RouterLink R}.
Variable THRESHOLDS : Config.Thresholds.


Lemma counted_trace metrics (st : NetworkMonitor R * Env) :
  trace_since st.2 (counted THRESHOLDS metrics st).2
    (tracked_all_events THRESHOLDS metrics (consecutive_failures st.1)).
Proof. done. Qed.

Lemma counted_count metrics (st : NetworkMonitor R * Env) (k : string) :
  Py.dict_wf metrics ->
  consecutive_failures (counted THRESHOLDS metrics st).1 !! k =
    match Py.dict_get k metrics with
    | Some _ => Some (count_at_gate THRESHOLDS st.1 metrics k)
    | None => consecutive_failures st.1 !! k
    end.
Proof.
  intros Hwf. unfold counted, count_at_gate, failure_count. simpl.
  rewrite (tracked_all_lookup _ _ _ _ Hwf). by destruct (Py.dict_get k metrics).
Qed.


(** Below the threshold a round is the counting loop and nothing more. *)
Lemma process_metrics_below_gate metrics (st : NetworkMonitor R * Env) :
  Py.dict_wf metrics ->
  (count_at_gate THRESHOLDS st.1 metrics (current_active (interface_manager st.1))
   < Config.consecutive_failures THRESHOLDS)%Z ->
  process_metrics THRESHOLDS metrics st = (tt, counted THRESHOLDS metrics st).
Proof.
  intros Hwf Hlow. rewrite process_metrics_run. cbv zeta.
  unfold gate. rewrite (counted_count _ _ _ Hwf).
  destruct (Py.dict_get _ metrics) as [m|] eqn:Hget.
  - by rewrite (proj2 (Z.leb_gt _ _) Hlow).
  - unfold count_at_gate, failure_count in Hlow. rewrite Hget in Hlow.
    destruct (consecutive_failures st.1 !! _) as [n|]; [|done].
    simpl in Hlow. by rewrite (proj2 (Z.leb_gt _ _) Hlow).
Qed.



End RoundFacts.

Section DecisionFacts.

Context {R : Type} `{RouterLink R}.
Variable THRESHOLDS : Config.Thresholds.

(** With both interfaces unhealthy the decision is to stay, with a
    warning. *)
Lemma evaluate_failover_need_both_unhealthy (im : InterfaceManager R) e metrics :
  current_active im = primary_interface im \/ current_active im = secondary_interface im ->
  is_interface_healthy THRESHOLDS (Py.dict_get (primary_interface im) metrics) = false ->
  is_interface_healthy THRESHOLDS (Py.dict_get (secondary_interface im) metrics) = false ->
  evaluate_failover_need THRESHOLDS metrics (im, e)
  = ((false, current_active im),
     (im, add_events
            [Call_evaluate_failover_need; Log WARNING Kedua_interfaces_terdeteksi_down] e)).
Proof.
  intros Hcur Hp Hs.
  assert (Hc : is_interface_healthy THRESHOLDS (Py.dict_get (current_active im) metrics)
               = false) by (by destruct Hcur as [-> | ->]).
  unfold evaluate_failover_need, add_events. unfold_prog. simpl.
  rewrite Hc, Hp, Hs, !andb_false_r. simpl. by rewrite <- app_assoc.
Qed.

Lemma is_log_not_router_call (delta : list event) :
  Forall (fun ev => is_log ev = true) delta ->
  Forall (fun ev => is_router_call ev = false) delta.
Proof. intros Hlog. eapply Forall_impl; [exact Hlog|]. by intros []. Qed.

End DecisionFacts.

(* ===================================================================== *)
(** ** The bounded history *)
(* ===================================================================== *)

Lemma last_n_short {A} (n : nat) (l : list A) : length l <= n -> Py.last_n n l = l.
Proof.
  intros Hl. unfold Py.last_n. by replace (length l - n) with 0 by lia.
Qed.

Lemma last_n_length {A} (n : nat) (l : list A) : length (Py.last_n n l) <= n.
Proof. unfold Py.last_n. rewrite length_drop. lia. Qed.

Lemma last_n_snoc_full {A} (n : nat) (l : list A) (x : A) :
  length l = n -> 0 < n -> Py.last_n n (l ++ [x]) = drop 1 l ++ [x].
Proof.
  intros Hl Hn. unfold Py.last_n. rewrite length_app. simpl.
  replace (length l + 1 - n) with 1 by lia.
  destruct l; [simpl in *; lia|done].
Qed.

Lemma last_n_snoc_last {A} (n : nat) (l : list A) (x : A) :
  0 < n -> last (Py.last_n n (l ++ [x])) = Some x.
Proof.
  intros Hn. unfold Py.last_n. rewrite length_app. simpl.
  rewrite drop_app_le by lia. apply last_snoc.
Qed.

Lemma remember_lookup_eq (i : string) (m : InterfaceMetrics)
    (history : gmap string (list InterfaceMetrics)) :
  remember i m history !! i
  = Some (Py.last_n 1000 (default [] (history !! i) ++ [m])).
Proof.
  unfold remember.
  destruct (history !! i) as [h|] eqn:E; cbn [default].
  - rewrite lookup_total_insert_eq, (lookup_total_correct _ _ _ E).
    case_decide as Hlen.
    + by rewrite lookup_insert_eq.
    + rewrite lookup_insert_eq, last_n_short; [done|unfold id; lia].
  - rewrite !lookup_total_insert_eq. simpl. by rewrite lookup_insert_eq.
Qed.

Lemma remember_lookup_ne (i j : string) (m : InterfaceMetrics)
    (history : gmap string (list InterfaceMetrics)) :
  i <> j -> remember i m history !! j = history !! j.
Proof.
  intros Hne. unfold remember.
  destruct (history !! i) as [h|] eqn:E; case_decide;
    by rewrite ?lookup_insert_ne by done.
Qed.

(** In a dict, every interface gets one more entry. *)
Lemma remember_all_lookup (metrics : Py.dict InterfaceMetrics)
    (history : gmap string (list InterfaceMetrics)) (k : string) :
  Py.dict_wf metrics ->
  remember_all metrics history !! k =
    match Py.dict_get k metrics with
    | Some m => Some (Py.last_n 1000 (default [] (history !! k) ++ [m]))
    | None => history !! k
    end.
Proof.
  unfold Py.dict_wf, Py.dict_keys.
  revert history. induction metrics as [|[i m] rest IH]; intros history Hwf; [done|].
  csimpl in *. apply NoDup_cons in Hwf as [Hi Hwf].
  rewrite (IH _ Hwf).
  destruct (String.eqb_spec i k) as [->|Hne].
  - rewrite (dict_get_None k rest Hi). apply remember_lookup_eq.
  - by rewrite remember_lookup_ne.
Qed.

Section CollectFacts.

Context {R : Type} `{RouterLink R}.
Variable PING_TARGETS : list string.

(** One pass of the storing loop touches the history of its interface
    only, and nothing else of the monitor but the store. *)
Lemma record_metrics_run interface m (st : NetworkMonitor R * Env) :
  let out := record_metrics interface m st in
  metrics_history out.2.1 = remember interface m (metrics_history st.1)
  /\ interface_manager out.2.1 = interface_manager st.1
  /\ consecutive_failures out.2.1 = consecutive_failures st.1.
Proof.
  destruct st as [self e]. unfold record_metrics, if_persistence, Persistence.store_metrics.
  unfold_prog. simpl.
  destruct (persistence self) as [p|]; simpl; [|done].
  by destruct (Persistence.db_writable p).
Qed.

Lemma record_loop_run metrics (st : NetworkMonitor R * Env) :
  let out := for_each metrics
               (fun '(interface, interface_metrics) =>
                  record_metrics interface interface_metrics) st in
  metrics_history out.2.1 = remember_all metrics (metrics_history st.1)
  /\ interface_manager out.2.1 = interface_manager st.1
  /\ consecutive_failures out.2.1 = consecutive_failures st.1.
Proof.
  revert st. induction metrics as [|[i m] rest IH]; intros st; [done|].
  cbn [for_each remember_all]. unfold mbind, Prog_bind.
  pose proof (record_metrics_run i m st) as (Hh & Hm & Hc).
  destruct (record_metrics i m st) as [[] st1]. cbn [fst snd] in *.
  destruct (IH st1) as (Hh' & Hm' & Hc'). cbv zeta in *.
  rewrite Hh', Hm', Hc', Hh, Hm, Hc. done.
Qed.

(** The dict of a round: a reading for the primary, then one for the
    secondary. *)
Lemma check_interfaces_result (im : InterfaceManager R) e :
  exists m1 m2,
    (check_interfaces PING_TARGETS (im, e)).1
    = Py.dict_set (secondary_interface im) m2
        (Py.dict_set (primary_interface im) m1 []).
Proof.
  unfold check_interfaces. unfold mbind, Prog_bind, mret, Prog_ret, get_self. cbn [fst snd].
  destruct (get_interface_metrics PING_TARGETS (primary_interface im) (im, e)) as [m1 st1].
  destruct (get_interface_metrics PING_TARGETS (secondary_interface im) st1) as [m2 st2].
  by exists m1, m2.
Qed.

Lemma collect_metrics_run (self : NetworkMonitor R) e :
  let out := collect_metrics PING_TARGETS (self, e) in
  out.1 = (check_interfaces PING_TARGETS (interface_manager self, e)).1
  /\ metrics_history out.2.1 = remember_all out.1 (metrics_history self).
Proof.
  unfold collect_metrics, on_manager, zoom.
  unfold mbind, Prog_bind, mret, Prog_ret, time_time. cbn [fst snd].
  destruct (check_interfaces PING_TARGETS (interface_manager self, e)) as [metrics [im1 e1]].
  cbn [fst snd].
  match goal with |- context [for_each metrics ?body ?st] =>
    pose proof (record_loop_run metrics st) as (Hh & _); destruct (for_each metrics body st) as [[] st2]
  end.
  cbn [fst snd] in *. done.
Qed.

End CollectFacts.

(* ===================================================================== *)
(** ** The aggregated metrics *)
(* ===================================================================== *)

Section AggregateFacts.

Context {R : Type} `{RouterLink R}.
Variable PING_TARGETS : list string.

(** The loop over the targets keeps the values of the answers it got. *)
Lemma ping_each_run interface_name targets latencies packet_losses
    (im : InterfaceManager R) e :
  ping_each interface_name targets latencies packet_losses (im, e) =
    let '(answers, r') := ping_answers interface_name targets (router im) in
    ((latencies ++ (avg_latency <$> omap id answers),
      packet_losses ++ (ping_packet_loss <$> omap id answers)),
     (with_router r' im, e)).
Proof.
  revert latencies packet_losses im.
  induction targets as [|target rest IH]; intros latencies packet_losses im.
  - simpl. rewrite !app_nil_r. by destruct im.
  - cbn [ping_each ping_answers]. unfold mbind, Prog_bind, on_router. cbn [fst snd].
    destruct (check_interface_connectivity interface_name target 5 (router im))
      as [[answer|] r1]; rewrite IH; cbn [router with_router];
      destruct (ping_answers interface_name rest r1) as [answers r2]; csimpl.
    + by rewrite <- !app_assoc.
    + done.
Qed.

(** The metrics of an interface that is up. *)
Lemma get_interface_metrics_up interface_name (im : InterfaceManager R) e :
  let '(interface_status, r1) := get_interface_status interface_name (router im) in
  reported_down interface_status = false ->
  let '(answers, r2) := ping_answers interface_name PING_TARGETS r1 in
  get_interface_metrics PING_TARGETS interface_name (im, e) =
    ({| interface := interface_name;
        status := "up";
        latency := aggregate Py.inf (avg_latency <$> omap id answers);
        packet_loss := aggregate 100 (ping_packet_loss <$> omap id answers);
        timestamp := clock e (reads e) |},
     (with_router r2 im,
      {| clock := clock e; reads := S (reads e); trace := trace e |})).
Proof.
  unfold get_interface_metrics. unfold mbind at 1. unfold Prog_bind at 1.
  unfold on_router at 1. cbn [fst snd].
  destruct (get_interface_status interface_name (router im)) as [interface_status r1].
  intros ->.
  unfold mbind, Prog_bind. rewrite ping_each_run. cbn [router with_router].
  destruct (ping_answers interface_name PING_TARGETS r1) as [answers r2].
  unfold mret, Prog_ret, time_time, aggregate. simpl. done.
Qed.

End AggregateFacts.

(** A client with an api at hand answers each ping test from the device. *)
Lemma mikrotik_ping_answers interface_name targets (c : Mikrotik.MikrotikClient) :
  Mikrotik.api c = true ->
  ping_answers interface_name targets c
  = ((fun target =>
        Mikrotik.ping_stats interface_name target 5
          <$> Mikrotik.ping_rows (Mikrotik.device c) target interface_name 5)
       <$> targets, c).
Proof.
  intros Hapi. induction targets as [|target rest IH]; [done|].
  cbn [ping_answers check_interface_connectivity Mikrotik.router_link].
  unfold Mikrotik.check_interface_connectivity, Mikrotik.ensure_api.
  rewrite Hapi.
  destruct (Mikrotik.ping_rows (Mikrotik.device c) target interface_name 5) eqn:E;
    rewrite IH; csimpl; by rewrite E.
Qed.

(** An interface is only found up through an api, over the same device. *)
Lemma mikrotik_status_up interface_name (c : Mikrotik.MikrotikClient) :
  reported_down (Mikrotik.get_interface_status interface_name c).1 = false ->
  Mikrotik.api (Mikrotik.get_interface_status interface_name c).2 = true
  /\ Mikrotik.device (Mikrotik.get_interface_status interface_name c).2
     = Mikrotik.device c.
Proof.
  unfold Mikrotik.get_interface_status, Mikrotik.get_interfaces, Mikrotik.ensure_api.
  destruct (Mikrotik.api c) eqn:Hapi.
  - by destruct (Mikrotik.interface_rows (Mikrotik.device c)).
  - destruct (Mikrotik.accepts_login (Mikrotik.device c)); simpl.
    + by destruct (Mikrotik.interface_rows (Mikrotik.device c)).
    + done.
Qed.

Lemma omap_id_fmap {A B} (f : A -> option B) (l : list A) :
  omap id (f <$> l) = omap f l.
Proof.
  induction l as [|x l IH]; [done|]. csimpl. rewrite IH. by destruct (f x).
Qed.

Lemma no_reply_counted (rows : list Mikrotik.PingReply) :
  omap Mikrotik.reply_time rows = [] ->
  filter (fun r => is_Some (Mikrotik.reply_time r)) rows = [].
Proof.
  induction rows as [|[[t|]] rows IH]; csimpl; [done|done|].
  intros Hrest. rewrite filter_cons_False; [by apply IH|].
  simpl. by intros [? ?].
Qed.

(* ===================================================================== *)
(** ** Invariants of a round *)
(* ===================================================================== *)

Section InvariantFacts.

Context {R : Type} `{RouterLink R}.
Variable THRESHOLDS : Config.Thresholds.

(** The decision names the primary, the secondary or the active interface. *)
Lemma evaluate_failover_need_target (im : InterfaceManager R) e metrics :
  let target := (evaluate_failover_need THRESHOLDS metrics (im, e)).1.2 in
  target = primary_interface im \/ target = secondary_interface im
  \/ target = current_active im.
Proof.
  unfold evaluate_failover_need. unfold_prog. simpl.
  repeat (case_match; simpl; auto).
Qed.

Lemma count_after_non_negative (healthy : bool) (n : Z) :
  (0 <= n)%Z -> (0 <= count_after healthy n)%Z.
Proof. unfold count_after. intros Hn. repeat case_match; lia. Qed.

Lemma tracked_all_non_negative (metrics : Py.dict InterfaceMetrics)
    (counters : gmap string Z) :
  map_Forall (fun _ n => (0 <= n)%Z) counters ->
  map_Forall (fun _ n => (0 <= n)%Z) (tracked_all THRESHOLDS metrics counters).
Proof.
  revert counters. induction metrics as [|[i m] rest IH]; intros counters Hc; [done|].
  cbn [tracked_all]. apply IH. unfold tracked.
  apply map_Forall_insert_2; [|done].
  apply count_after_non_negative.
  destruct (counters !! i) as [n|] eqn:E; simpl; [by apply (Hc i)|done].
Qed.

End InvariantFacts.

(* ===================================================================== *)
(** ** Strings *)
(* ===================================================================== *)

Lemma string_app_cons (a : Ascii.ascii) (p rest : string) :
  (String a p +:+ rest)%string = String a (p +:+ rest)%string.
Proof. reflexivity. Qed.

Lemma string_app_nil (rest : string) : (EmptyString +:+ rest)%string = rest.
Proof. reflexivity. Qed.

Lemma prefix_spec (p s : string) :
  String.prefix p s = true <-> exists rest, s = (p +:+ rest)%string.
Proof.
  revert p. induction s as [|b s IH]; intros [|a p]; simpl.
  - split; [by exists EmptyString|done].
  - split; [done|]. intros [rest Hrest]. by rewrite string_app_cons in Hrest.
  - split; [by exists (String b s)|done].
  - destruct (Ascii.ascii_dec a b) as [->|Hne].
    + rewrite IH. split; intros [rest Hrest]; exists rest.
      * by rewrite string_app_cons, Hrest.
      * rewrite string_app_cons in Hrest. congruence.
    + split; [done|]. intros [rest Hrest].
      rewrite string_app_cons in Hrest. congruence.
Qed.

(** [needle in hay] holds exactly when [hay] is some text, [needle], some
    text. *)
Lemma contains_spec (needle hay : string) :
  Py.contains needle hay = true
  <-> exists before after, hay = (before +:+ needle +:+ after)%string.
Proof.
  induction hay as [|b hay IH]; cbn [Py.contains].
  - rewrite orb_false_r, prefix_spec. split.
    + intros [rest Hrest]. by exists EmptyString, rest.
    + intros [[|a before] [after Hh]].
      * rewrite string_app_nil in Hh. by exists after.
      * by rewrite string_app_cons in Hh.
  - rewrite orb_true_iff, prefix_spec, IH. split.
    + intros [[rest Hrest] | (before & after & Hh)].
      * by exists EmptyString, rest.
      * exists (String b before), after. by rewrite string_app_cons, Hh.
    + intros [[|a before] [after Hh]].
      * left. rewrite string_app_nil in Hh. by exists after.
      * right. rewrite string_app_cons in Hh. exists before, after. congruence.
Qed.

(* ===================================================================== *)
(** ** The route table under [update_routing_priority] *)
(* ===================================================================== *)

Lemma rewritten_refl distance r : rewritten distance r r.
Proof. split; [done|by left]. Qed.

Lemma rewritten_trans distance r1 r2 r3 :
  rewritten distance r1 r2 -> rewritten distance r2 r3 -> rewritten distance r1 r3.
Proof.
  intros [Hk1 Hd1] [Hk2 Hd2]. split.
  - intros k Hk. by rewrite Hk2, Hk1.
  - destruct Hd2 as [Hd2|Hd2]; [rewrite Hd2|]; auto.
Qed.

Lemma rewritten_through distance interface_name r r' :
  rewritten distance r r' ->
  Mikrotik.routes_through interface_name r' = Mikrotik.routes_through interface_name r.
Proof.
  intros [Hk _]. unfold Mikrotik.routes_through. by rewrite Hk.
Qed.

(** One write: every route is rewritten, those with the id get the
    distance. *)
Lemma write_distance_rewritten id distance (rows : list row) :
  Forall2 (rewritten distance) rows (Mikrotik.write_distance id distance rows)
  /\ Forall (fun r' : row => r' !! ".id" = Some id -> r' !! "distance" = Some distance)
       (Mikrotik.write_distance id distance rows).
Proof.
  unfold Mikrotik.write_distance. induction rows as [|r rows [IH1 IH2]]; csimpl.
  - split; constructor.
  - split; constructor; try done.
    + case_decide; [|apply rewritten_refl].
      split; [|right; apply lookup_insert_eq].
      intros k Hk. by rewrite lookup_insert_ne.
    + case_decide as Hid; [intros _; apply lookup_insert_eq|done].
Qed.

(** The loop of writes, when every write went through. *)
Lemma update_each_done targets new_distance (d d' : Mikrotik.Device) (rows : list row) :
  Mikrotik.route_rows d = Some rows ->
  Mikrotik.update_each targets new_distance d = (true, d') ->
  exists rows',
    d' = Mikrotik.with_route_rows (Some rows') d
    /\ Forall2 (rewritten (pretty new_distance)) rows rows'
    /\ Forall (fun t : row =>
         exists id, t !! ".id" = Some id
           /\ Forall (fun r' : row =>
                r' !! ".id" = Some id -> r' !! "distance" = Some (pretty new_distance))
                rows') targets.
Proof.
  revert d rows. induction targets as [|t rest IH]; intros d rows Hrows; simpl.
  - intros [= <-]. exists rows. split; [by destruct d; simpl in *; subst|].
    split; [|constructor]. apply Forall2_same_length_lookup_2; [done|].
    intros i r r' Hr Hr'. rewrite Hr in Hr'. injection Hr' as <-. apply rewritten_refl.
  - destruct (t !! ".id") as [id|] eqn:Hid; [|done].
    destruct (Mikrotik.route_writable d id); [|done].
    rewrite Hrows. csimpl. intros Hrest.
    destruct (write_distance_rewritten id (pretty new_distance) rows) as [Hw1 Hw2].
    destruct (IH (Mikrotik.with_route_rows
                    (Some (Mikrotik.write_distance id (pretty new_distance) rows)) d)
                (Mikrotik.write_distance id (pretty new_distance) rows) eq_refl Hrest)
      as (rows' & -> & Hrw & Htargets).
    exists rows'. split; [done|]. split.
    + apply Forall2_same_length_lookup_2.
      { by rewrite (Forall2_length _ _ _ Hw1), (Forall2_length _ _ _ Hrw). }
      intros i r r' Hr Hr'.
      destruct (Forall2_lookup_l _ _ _ _ _ Hw1 Hr) as (r1 & Hr1 & H1).
      destruct (Forall2_lookup_l _ _ _ _ _ Hrw Hr1) as (r2 & Hr2 & H2).
      rewrite Hr' in Hr2. injection Hr2 as <-. by eapply rewritten_trans.
    + constructor; [|done]. exists id. split; [done|].
      apply Forall_lookup_2. intros i r' Hr' Hid'.
      destruct (Forall2_lookup_r _ _ _ _ _ Hrw Hr') as (r1 & Hr1 & [Hk Hd]).
      pose proof (Forall_lookup_1 _ _ _ _ Hw2 Hr1) as Hset.
      destruct Hd as [Hd|Hd]; [|done]. rewrite Hd. apply Hset.
      by rewrite <- Hk.
Qed.

Lemma routes_through_spec (interface_name : string) (r : row) :
  Mikrotik.routes_through interface_name r = true
  <-> exists gateway before after,
        r !! "gateway" = Some gateway
        /\ gateway <> EmptyString
        /\ gateway = (before +:+ interface_name +:+ after)%string.
Proof.
  unfold Mikrotik.routes_through. destruct (r !! "gateway") as [gw|].
  - rewrite andb_true_iff, negb_true_iff, contains_spec. split.
    + intros [Hne (before & after & Hgw)]. exists gw, before, after.
      split; [done|]. split; [|done]. intros ->. by rewrite String.eqb_refl in Hne.
    + intros (gw' & before & after & [= <-] & Hne & Hgw). split; [|by eauto].
      by destruct (String.eqb_spec gw EmptyString).
  - split; [done|]. by intros (gw' & before & after & ? & _).
Qed.

(** A successful [update_routing_priority], on the route table. *)
Lemma update_routing_priority_done interface_name new_distance
    (c c' : Mikrotik.MikrotikClient) :
  Mikrotik.update_routing_priority interface_name new_distance c = (true, c') ->
  exists rows rows',
    Mikrotik.route_rows (Mikrotik.device c) = Some rows
    /\ c' = {| Mikrotik.api := true;
               Mikrotik.device := Mikrotik.with_route_rows (Some rows') (Mikrotik.device c) |}
    /\ Forall2 (rewritten (pretty new_distance)) rows rows'
    /\ Exists (fun r => Mikrotik.routes_through interface_name r = true) rows
    /\ Forall (fun r' : row =>
         Mikrotik.routes_through interface_name r' = true ->
         r' !! "distance" = Some (pretty new_distance)) rows'.
Proof.
  unfold Mikrotik.update_routing_priority.
  assert (Hensure : forall ok c1, Mikrotik.ensure_api c = (ok, c1) ->
            ok = true -> Mikrotik.api c1 = true
                         /\ Mikrotik.device c1 = Mikrotik.device c).
  { unfold Mikrotik.ensure_api. intros ok c1.
    destruct (Mikrotik.api c) eqn:Hapi; [by intros [= <- <-]|].
    destruct (Mikrotik.accepts_login (Mikrotik.device c)); intros [= <- <-]; done. }
  destruct (Mikrotik.ensure_api c) as [ok c1] eqn:Hc1.
  destruct ok; [|done]. destruct (Hensure _ _ eq_refl eq_refl) as [Hapi Hdev].
  destruct (Mikrotik.route_rows (Mikrotik.device c1)) as [rows|] eqn:Hrows; [|done].
  destruct (filter _ rows) as [|t targets] eqn:Hfilter; [done|].
  destruct (Mikrotik.update_each _ _ _) as [ok d'] eqn:Hupd.
  intros [= -> <-].
  destruct (update_each_done _ _ _ _ _ Hrows Hupd) as (rows' & -> & Hrw & Htargets).
  exists rows, rows'. rewrite <- Hdev, Hapi. split; [done|]. split; [done|].
  split; [done|]. split.
  - apply Exists_exists. exists t.
    assert (Ht : t ∈ filter (fun r => Mikrotik.routes_through interface_name r) rows)
      by (rewrite Hfilter; left).
    apply list_elem_of_filter in Ht as [Ht ?]. split; [done|]. by apply Is_true_true.
  - apply Forall_lookup_2. intros i r' Hr' Hthrough.
    destruct (Forall2_lookup_r _ _ _ _ _ Hrw Hr') as (r & Hr & Hrewritten).
    rewrite (rewritten_through _ _ _ _ Hrewritten) in Hthrough.
    assert (Hin : r ∈ t :: targets).
    { rewrite <- Hfilter. apply list_elem_of_filter. split.
      - by apply Is_true_true.
      - by eapply list_elem_of_lookup_2. }
    rewrite Forall_forall in Htargets.
    destruct (Htargets r Hin) as (id & Hid & Hset).
    apply (Forall_lookup_1 _ _ _ _ Hset Hr').
    destruct Hrewritten as [Hk _]. by rewrite Hk.
Qed.

(* ===================================================================== *)
(** ** The metrics of one interface *)
(* ===================================================================== *)

Section MetricsFacts.

Context {R : Type} `{RouterLink R}.
Variable PING_TARGETS : list string.

(** The metrics of an interface that is reported down. *)
Lemma get_interface_metrics_down_run interface_name (im : InterfaceManager R) e :
  reported_down (get_interface_status interface_name (router im)).1 = true ->
  get_interface_metrics PING_TARGETS interface_name (im, e) =
    ({| interface := interface_name;
        status := "down";
        latency := Py.inf;
        packet_loss := 100;
        timestamp := clock e (reads e) |},
     (with_router (get_interface_status interface_name (router im)).2 im,
      {| clock := clock e;
         reads := S (reads e);
         trace := trace e ++ [Log WARNING (Interface_is_down_or_not_found interface_name)] |})).
Proof.
  unfold get_interface_metrics. unfold mbind at 1. unfold Prog_bind at 1.
  unfold on_router at 1. cbn [fst snd].
  destruct (get_interface_status interface_name (router im)) as [interface_status r1].
  cbn [fst snd]. intros ->. unfold_prog. done.
Qed.

(** Whatever the router says, the metrics carry the asked name and the
    time of the clock, and the call changes nothing of the manager but the
    router, reads the clock once and only logs. *)
Lemma get_interface_metrics_frame interface_name (im : InterfaceManager R) e :
  let out := get_interface_metrics PING_TARGETS interface_name (im, e) in
  interface out.1 = interface_name
  /\ timestamp out.1 = clock e (reads e)
  /\ out.2.1 = with_router (router out.2.1) im
  /\ clock out.2.2 = clock e
  /\ reads out.2.2 = S (reads e)
  /\ exists delta, trace_since e out.2.2 delta /\ Forall (fun ev => is_log ev = true) delta.
Proof.
  cbv zeta.
  destruct (reported_down (get_interface_status interface_name (router im)).1) eqn:Hdown.
  - rewrite (get_interface_metrics_down_run _ _ _ Hdown). cbn.
    repeat split. eexists. split; [done|]. by repeat constructor.
  - pose proof (get_interface_metrics_up PING_TARGETS interface_name im e) as Hup.
    destruct (get_interface_status interface_name (router im)) as [st r1].
    cbn [fst] in Hdown. specialize (Hup Hdown).
    destruct (ping_answers interface_name PING_TARGETS r1) as [answers r2].
    rewrite Hup. cbn. repeat split. exists []. split; [|constructor].
    unfold trace_since. cbn. by rewrite app_nil_r.
Qed.

(** The dict of [check_interfaces] in full. *)
Lemma check_interfaces_run (im : InterfaceManager R) e :
  let out := check_interfaces PING_TARGETS (im, e) in
  exists m1 m2,
    out.1 = Py.dict_set (secondary_interface im) m2
              (Py.dict_set (primary_interface im) m1 [])
    /\ interface m1 = primary_interface im
    /\ interface m2 = secondary_interface im
    /\ out.2.1 = with_router (router out.2.1) im
    /\ clock out.2.2 = clock e
    /\ reads out.2.2 = S (S (reads e))
    /\ exists delta, trace_since e out.2.2 delta /\ Forall (fun ev => is_log ev = true) delta.
Proof.
  cbv zeta. unfold check_interfaces.
  unfold mbind, Prog_bind, mret, Prog_ret, get_self. cbn [fst snd].
  pose proof (get_interface_metrics_frame (primary_interface im) im e)
    as (Hn1 & _ & Him1 & Hc1 & Hr1 & d1 & Hd1 & Hl1).
  destruct (get_interface_metrics PING_TARGETS (primary_interface im) (im, e))
    as [m1 [im1 e1]]. cbn [fst snd] in *.
  pose proof (get_interface_metrics_frame (secondary_interface im) im1 e1)
    as (Hn2 & _ & Him2 & Hc2 & Hr2 & d2 & Hd2 & Hl2).
  destruct (get_interface_metrics PING_TARGETS (secondary_interface im) (im1, e1))
    as [m2 [im2 e2]]. cbn [fst snd] in *.
  exists m1, m2. split; [done|]. split; [done|]. split; [done|]. split.
  - rewrite Him2 at 1. rewrite Him1. done.
  - split; [congruence|]. split; [congruence|].
    exists (d1 ++ d2). split; [by eapply trace_since_trans|]. by apply Forall_app.
Qed.

End MetricsFacts.

(* ===================================================================== *)
(** ** The decision *)
(* ===================================================================== *)

Section MoreDecisionFacts.

Context {R : Type} `{RouterLink R}.
Variable THRESHOLDS : Config.Thresholds.

Lemma other_interface_primary (im : InterfaceManager R) :
  other_interface im (primary_interface im) = secondary_interface im.
Proof. unfold other_interface. by rewrite String.eqb_refl. Qed.

Lemma other_interface_secondary (im : InterfaceManager R) :
  primary_interface im <> secondary_interface im ->
  other_interface im (secondary_interface im) = primary_interface im.
Proof.
  intros Hne. unfold other_interface.
  by destruct (String.eqb_spec (secondary_interface im) (primary_interface im)).
Qed.

(** The active interface is unhealthy and its partner is healthy: the
    decision is to switch to the partner. *)
Lemma evaluate_failover_need_switch (im : InterfaceManager R) e metrics :
  active_is_configured im ->
  primary_interface im <> secondary_interface im ->
  is_interface_healthy THRESHOLDS (Py.dict_get (current_active im) metrics) = false ->
  is_interface_healthy THRESHOLDS
    (Py.dict_get (other_interface im (current_active im)) metrics) = true ->
  evaluate_failover_need THRESHOLDS metrics (im, e)
  = ((true, other_interface im (current_active im)),
     (im, add_events [Call_evaluate_failover_need] e)).
Proof.
  intros Hcur Hne Hbad Hgood.
  unfold evaluate_failover_need, add_events. unfold_prog. cbn [fst snd].
  rewrite Hbad.
  destruct Hcur as [Hcur|Hcur]; rewrite Hcur in *.
  - rewrite other_interface_primary in *. rewrite String.eqb_refl, Hgood. done.
  - rewrite other_interface_secondary in * by done.
    destruct (String.eqb_spec (secondary_interface im) (primary_interface im)); [congruence|].
    rewrite String.eqb_refl, Hgood. done.
Qed.

End MoreDecisionFacts.

(* ===================================================================== *)
(** ** More on a round *)
(* ===================================================================== *)

Lemma filter_router_call_log (delta : list event) :
  Forall (fun ev => is_log ev = true) delta ->
  filter (fun ev => is_router_call ev = true) delta = [].
Proof.
  induction 1 as [|ev delta Hev _ IH]; [done|].
  rewrite filter_cons_False; [done|]. by destruct ev.
Qed.

Lemma filter_evaluation_log (delta : list event) :
  Forall (fun ev => is_log ev = true) delta ->
  filter (fun ev => is_evaluation ev = true) delta = [].
Proof.
  induction 1 as [|ev delta Hev _ IH]; [done|].
  rewrite filter_cons_False; [done|]. by destruct ev.
Qed.

(** The events of a call of [evaluate_failover_need]. *)
Lemma filter_evaluation_call (delta : list event) :
  Forall (fun ev => is_log ev = true) delta ->
  filter (fun ev => is_evaluation ev = true) (Call_evaluate_failover_need :: delta)
  = [Call_evaluate_failover_need]
  /\ filter (fun ev => is_router_call ev = true) (Call_evaluate_failover_need :: delta)
     = [].
Proof.
  intros Hlog. rewrite filter_cons_True by done. rewrite filter_cons_False by done.
  by rewrite (filter_evaluation_log _ Hlog), (filter_router_call_log _ Hlog).
Qed.

(** The events of a call of [perform_failover]. *)
Lemma filter_switch_events from_interface to_interface (b1 b2 : bool) (closing : message)
    (lvl : level) :
  let events :=
    [Log INFO (Performing_failover from_interface to_interface);
     Call_update_routing_priority from_interface 10 b1;
     Call_update_routing_priority to_interface 1 b2;
     Log lvl closing] in
  filter (fun ev => is_evaluation ev = true) events = []
  /\ filter (fun ev => is_router_call ev = true) events
     = [Call_update_routing_priority from_interface 10 b1;
        Call_update_routing_priority to_interface 1 b2].
Proof.
  cbv zeta. split.
  - by rewrite !filter_cons_False by done.
  - rewrite filter_cons_False by done. rewrite !filter_cons_True by done.
    by rewrite filter_cons_False by done.
Qed.

Section MoreRoundFacts.

Context {R : Type} `{RouterLink R}.
Variable THRESHOLDS : Config.Thresholds.

(** A round changes the count of no interface but the active one beyond
    what the counting loop did. *)
Lemma process_metrics_other_count metrics (st : NetworkMonitor R * Env) (k : string) :
  k <> current_active (interface_manager st.1) ->
  consecutive_failures (process_metrics THRESHOLDS metrics st).2.1 !! k
  = consecutive_failures (counted THRESHOLDS metrics st).1 !! k.
Proof.
  intros Hk. rewrite process_metrics_run. cbv zeta.
  case_match; [|done].
  destruct (evaluate_failover_need _ _ _) as [[need target] [im2 e2]].
  case_match; [|done].
  destruct (perform_failover _ _ _) as [b [im3 e3]]. cbn.
  by rewrite lookup_insert_ne.
Qed.

(** A round never touches the history, the store or the running flag. *)
Lemma process_metrics_frame metrics (st : NetworkMonitor R * Env) :
  let out := process_metrics THRESHOLDS metrics st in
  metrics_history out.2.1 = metrics_history st.1
  /\ persistence out.2.1 = persistence st.1
  /\ is_running out.2.1 = is_running st.1.
Proof.
  cbv zeta. rewrite process_metrics_run. cbv zeta.
  case_match; [|done].
  destruct (evaluate_failover_need _ _ _) as [[need target] [im2 e2]].
  case_match; [|done].
  by destruct (perform_failover _ _ _) as [b [im3 e3]].
Qed.

End MoreRoundFacts.

(* ===================================================================== *)
(** ** Reading the history *)
(* ===================================================================== *)

Lemma default_Some {A} (d x : A) : default d (Some x) = x.
Proof. reflexivity. Qed.

Lemma last_n_length_min {A} (n : nat) (l : list A) :
  length (Py.last_n n l) = min n (length l).
Proof. unfold Py.last_n. rewrite length_drop. lia. Qed.

(** [l[-limit:]] by the sign of [limit]. *)
Lemma slice_from_neg_pos {A} (limit : Z) (l : list A) :
  (0 < limit)%Z -> Py.slice_from (- limit) l = Py.last_n (Z.to_nat limit) l.
Proof.
  intros Hpos. unfold Py.slice_from, Py.last_n.
  destruct (Z.ltb_spec (- limit) 0); [|lia]. f_equal. lia.
Qed.

Lemma slice_from_zero {A} (l : list A) : Py.slice_from (- 0) l = l.
Proof.
  unfold Py.slice_from. change (- 0 <? 0)%Z with false. cbv iota.
  replace (Z.to_nat (Z.min (- 0) (Z.of_nat (length l)))) with 0 by lia. done.
Qed.

Lemma slice_from_neg_neg {A} (limit : Z) (l : list A) :
  (limit < 0)%Z -> Py.slice_from (- limit) l = drop (Z.to_nat (- limit)) l.
Proof.
  intros Hneg. unfold Py.slice_from.
  destruct (Z.ltb_spec (- limit) 0); [lia|].
  destruct (Z.le_ge_cases (- limit) (Z.of_nat (length l))).
  - by rewrite Z.min_l.
  - rewrite Z.min_r, Nat2Z.id by done. rewrite !drop_ge; [done|lia|lia].
Qed.

Lemma recent_pos (limit : Z) (history : list InterfaceMetrics) :
  (0 < limit)%Z -> recent limit history = Py.last_n (Z.to_nat limit) history.
Proof.
  intros Hpos. unfold recent. destruct history; [done|]. by apply slice_from_neg_pos.
Qed.

Lemma recent_zero (history : list InterfaceMetrics) : recent 0 history = history.
Proof. unfold recent. destruct history; [done|]. apply slice_from_zero. Qed.

Lemma recent_neg (limit : Z) (history : list InterfaceMetrics) :
  (limit < 0)%Z -> recent limit history = drop (Z.to_nat (- limit)) history.
Proof.
  intros Hneg. unfold recent. destruct history; [by rewrite drop_nil|].
  by apply slice_from_neg_neg.
Qed.

Section MoreCollectFacts.

Context {R : Type} `{RouterLink R}.
Variable PING_TARGETS : list string.

(** [collect_metrics] hands on the dict of [check_interfaces], a dict with
    a reading for both interfaces, stores every reading, and changes
    nothing of the manager but the router, and no failure count. *)
Lemma collect_metrics_frame (self : NetworkMonitor R) e :
  let out := collect_metrics PING_TARGETS (self, e) in
  let im := interface_manager self in
  Py.dict_wf out.1
  /\ is_Some (Py.dict_get (primary_interface im) out.1)
  /\ is_Some (Py.dict_get (secondary_interface im) out.1)
  /\ (forall k, metrics_history out.2.1 !! k
        = match Py.dict_get k out.1 with
          | Some m => Some (Py.last_n 1000 (default [] (metrics_history self !! k) ++ [m]))
          | None => metrics_history self !! k
          end)
  /\ interface_manager out.2.1 = with_router (router (interface_manager out.2.1)) im
  /\ consecutive_failures out.2.1 = consecutive_failures self.
Proof.
  cbv zeta.
  assert (Hshape : exists m1 m2,
            (collect_metrics PING_TARGETS (self, e)).1
            = Py.dict_set (secondary_interface (interface_manager self)) m2
                (Py.dict_set (primary_interface (interface_manager self)) m1 [])
            /\ metrics_history (collect_metrics PING_TARGETS (self, e)).2.1
               = remember_all (collect_metrics PING_TARGETS (self, e)).1 (metrics_history self)
            /\ interface_manager (collect_metrics PING_TARGETS (self, e)).2.1
               = with_router
                   (router (interface_manager (collect_metrics PING_TARGETS (self, e)).2.1))
                   (interface_manager self)
            /\ consecutive_failures (collect_metrics PING_TARGETS (self, e)).2.1
               = consecutive_failures self).
  { unfold collect_metrics, on_manager, zoom.
    unfold mbind, Prog_bind, mret, Prog_ret, time_time. cbn [fst snd].
    destruct (check_interfaces_run PING_TARGETS (interface_manager self) e)
      as (m1 & m2 & Hdict & _ & _ & Him & _).
    destruct (check_interfaces PING_TARGETS (interface_manager self, e))
      as [metrics [im1 e1]]. cbn [fst snd] in *.
    match goal with |- context [for_each metrics ?body ?st] =>
      pose proof (record_loop_run metrics st) as (Hh & Hm & Hc);
      destruct (for_each metrics body st) as [[] st2]
    end.
    cbn [fst snd] in *. exists m1, m2. rewrite Hh, Hm, Hc. cbn.
    split; [done|]. split; [done|]. split; [|done]. by rewrite Him at 1. }
  destruct Hshape as (m1 & m2 & Hdict & Hhistory & Him & Hcounts).
  assert (Hwf : Py.dict_wf (collect_metrics PING_TARGETS (self, e)).1).
  { rewrite Hdict. do 2 apply dict_set_wf. apply NoDup_nil_2. }
  split; [done|]. split; [|split; [|split; [|split; [done|done]]]].
  - rewrite Hdict.
    destruct (String.eqb_spec (primary_interface (interface_manager self))
                (secondary_interface (interface_manager self))) as [E|E].
    + rewrite E, dict_get_set_eq. by eexists.
    + rewrite dict_get_set_ne, dict_get_set_eq by done. by eexists.
  - rewrite Hdict, dict_get_set_eq. by eexists.
  - intros k. rewrite Hhistory. by apply remember_all_lookup.
Qed.

End MoreCollectFacts.

(* ===================================================================== *)
(** ** A switch on the route table *)
(* ===================================================================== *)

Lemma filter_routes_through_none interface_name (rows : list row) :
  Forall (fun r => Mikrotik.routes_through interface_name r = false) rows ->
  filter (fun r => Mikrotik.routes_through interface_name r) rows = [].
Proof.
  induction 1 as [|r rows Hr _ IH]; [done|].
  rewrite filter_cons_False; [done|]. rewrite Hr. by intros [].
Qed.

(** Without a route through the interface nothing is written. *)
Lemma update_routing_priority_no_route interface_name new_distance
    (c : Mikrotik.MikrotikClient) (rows : list row) :
  Mikrotik.api c = true ->
  Mikrotik.route_rows (Mikrotik.device c) = Some rows ->
  Forall (fun r => Mikrotik.routes_through interface_name r = false) rows ->
  Mikrotik.update_routing_priority interface_name new_distance c = (false, c).
Proof.
  intros Hapi Hrows Hnone.
  unfold Mikrotik.update_routing_priority, Mikrotik.ensure_api.
  by rewrite Hapi, Hrows, (filter_routes_through_none _ _ Hnone).
Qed.

Lemma rewritten_keeps_no_route distance interface_name (rows rows' : list row) :
  Forall2 (rewritten distance) rows rows' ->
  Forall (fun r => Mikrotik.routes_through interface_name r = false) rows ->
  Forall (fun r => Mikrotik.routes_through interface_name r = false) rows'.
Proof.
  induction 1 as [|r r' rows rows' Hr _ IH]; [done|].
  intros [Hhead Htail]%Forall_cons. constructor; [|by apply IH].
  by rewrite (rewritten_through _ _ _ _ Hr).
Qed.

(* ===================================================================== *)
(** ** Invariants of the monitoring loop *)
(* ===================================================================== *)

Section LoopFacts.

Context {R : Type} `{RouterLink R}.
Variable PING_TARGETS : list string.
Variable THRESHOLDS : Config.Thresholds.

Lemma collect_metrics_invariant names (self : NetworkMonitor R) e :
  loop_invariant names self ->
  loop_invariant names (collect_metrics PING_TARGETS (self, e)).2.1.
Proof.
  intros (Hp & Hs & Hactive & Hcounts & Hbounded).
  destruct (collect_metrics_frame PING_TARGETS self e)
    as (_ & _ & _ & Hhistory & Him & Hc).
  unfold loop_invariant, active_is_configured, counts_non_negative in *.
  rewrite Him, Hc. cbn. repeat split; try done.
  intros i h. rewrite Hhistory.
  destruct (Py.dict_get i _) as [m|].
  - intros [= <-]. apply last_n_length.
  - apply Hbounded.
Qed.

Lemma process_metrics_invariant names metrics (self : NetworkMonitor R) e :
  loop_invariant names self ->
  loop_invariant names (process_metrics THRESHOLDS metrics (self, e)).2.1.
Proof.
  intros (Hp & Hs & Hactive & Hcounts & Hbounded).
  destruct (process_metrics_frame THRESHOLDS metrics (self, e)) as (Hh & _ & _).
  unfold loop_invariant. rewrite Hh. cbn [fst].
  assert (Htracked := tracked_all_non_negative THRESHOLDS metrics _ Hcounts).
  pose proof (evaluate_failover_need_manager THRESHOLDS (interface_manager self)
                (counted THRESHOLDS metrics (self, e)).2 metrics) as Him.
  pose proof (evaluate_failover_need_target THRESHOLDS (interface_manager self)
                (counted THRESHOLDS metrics (self, e)).2 metrics) as Htarget.
  rewrite process_metrics_run. cbv zeta. cbn [fst snd].
  unfold counts_non_negative, active_is_configured in *.
  case_match; [|done].
  destruct (evaluate_failover_need _ _ _) as [[need target] [im2 e2]].
  cbn [fst snd] in *. subst im2.
  case_match; [|done].
  rewrite perform_failover_run. cbv zeta.
  destruct (promote _ _ _) as [[] r2]; cbn.
  - repeat split; try done.
    + destruct Htarget as [-> | [-> | ->]]; auto.
    + by apply map_Forall_insert_2.
  - repeat split; try done. by apply map_Forall_insert_2.
Qed.

Lemma monitoring_round_run (st : NetworkMonitor R * Env) :
  monitoring_round PING_TARGETS THRESHOLDS st
  = process_metrics THRESHOLDS (collect_metrics PING_TARGETS st).1
      (collect_metrics PING_TARGETS st).2.
Proof.
  unfold monitoring_round. unfold mbind at 1. unfold Prog_bind at 1.
  by destruct (collect_metrics PING_TARGETS st).
Qed.

Lemma monitoring_round_invariant names (self : NetworkMonitor R) e :
  loop_invariant names self ->
  loop_invariant names (monitoring_round PING_TARGETS THRESHOLDS (self, e)).2.1.
Proof.
  intros Hinv. rewrite monitoring_round_run.
  pose proof (collect_metrics_invariant names self e Hinv) as Hcollected.
  destruct (collect_metrics PING_TARGETS (self, e)) as [metrics [self1 e1]].
  by apply process_metrics_invariant.
Qed.

End LoopFacts.

(* ===================================================================== *)
(** ** The decision and the switch, together *)
(* ===================================================================== *)

Section SafetyFacts.

Context {R : Type} `{RouterLink R}.
Variable THRESHOLDS : Config.Thresholds.

(** A failover is only ever asked for towards a healthy reading. *)
Lemma evaluate_failover_need_safe (im : InterfaceManager R) e metrics :
  (evaluate_failover_need THRESHOLDS metrics (im, e)).1.1 = true ->
  is_interface_healthy THRESHOLDS
    (Py.dict_get (evaluate_failover_need THRESHOLDS metrics (im, e)).1.2 metrics) = true.
Proof.
  unfold evaluate_failover_need. unfold_prog. cbn [fst snd].
  repeat (case_match; cbn [fst snd]); try done; intros _;
    repeat match goal with
    | H : (_ && _) = true |- _ => apply andb_prop in H as [? ?]
    end; done.
Qed.

(** The decision leaves the clock as it is, up to the readings taken. *)
Lemma evaluate_failover_need_clock (im : InterfaceManager R) e metrics :
  clock (evaluate_failover_need THRESHOLDS metrics (im, e)).2.2 = clock e.
Proof.
  unfold evaluate_failover_need. unfold_prog. cbn [fst snd].
  repeat (case_match; cbn [fst snd]); done.
Qed.

End SafetyFacts.

(** The loop of writes goes through exactly when every route to write has
    an id the device lets be written. *)
Lemma update_each_succeeds targets new_distance (d : Mikrotik.Device) :
  (Mikrotik.update_each targets new_distance d).1 = true
  <-> Forall (fun t : row =>
        exists id, t !! ".id" = Some id /\ Mikrotik.route_writable d id = true) targets.
Proof.
  revert d. induction targets as [|t rest IH]; intros d; cbn [Mikrotik.update_each].
  - split; [constructor|done].
  - destruct (t !! ".id") as [id|] eqn:Hid.
    + destruct (Mikrotik.route_writable d id) eqn:Hw.
      * rewrite IH. cbn [Mikrotik.with_route_rows Mikrotik.route_writable]. split.
        -- intros Hrest. constructor; [by exists id|done].
        -- by intros [_ Hrest]%Forall_cons.
      * split; [done|]. intros [(id' & Hid' & Hw') _]%Forall_cons. congruence.
    + split; [done|]. intros [(id' & Hid' & _) _]%Forall_cons. congruence.
Qed.

(* ===================================================================== *)
(** ** The health verdict *)
(* ===================================================================== *)

(** C3.  [is_interface_healthy] answers [False] for absent metrics and for
    status down whatever the latency and the packet loss are; otherwise it
    answers [True] exactly when latency < latency_max and packet_loss <
    packet_loss_max, both strictly: a latency equal to latency_max, or a
    packet loss equal to packet_loss_max, is unhealthy. *)
Theorem is_interface_healthy_verdict (THRESHOLDS : Config.Thresholds)
    (metrics : option InterfaceMetrics) :
  (metrics = None -> is_interface_healthy THRESHOLDS metrics = false)
  /\ (forall m, metrics = Some m -> status m = "down" ->
        is_interface_healthy THRESHOLDS metrics = false)
  /\ (forall m, metrics = Some m -> status m <> "down" ->
        (is_interface_healthy THRESHOLDS metrics = true
         <-> (latency m <? Config.latency_max THRESHOLDS)%float = true
             /\ (packet_loss m <? Config.packet_loss_max THRESHOLDS)%float = true))
  /\ (forall m, metrics = Some m ->
        ((latency m =? Config.latency_max THRESHOLDS)%float = true
         \/ latency m = Config.latency_max THRESHOLDS
         \/ (packet_loss m =? Config.packet_loss_max THRESHOLDS)%float = true
         \/ packet_loss m = Config.packet_loss_max THRESHOLDS) ->
        is_interface_healthy THRESHOLDS metrics = false).
Proof.
  unfold is_interface_healthy.
  split; [by intros ->|].
  split; [intros m -> Hdown; by rewrite Hdown|].
  split.
  - intros m -> Hup.
    destruct (String.eqb_spec (status m) "down") as [|_]; [done|].
    split; [by intros [? ?]%andb_prop | by intros [-> ->]].
  - intros m -> Hedge.
    destruct (String.eqb (status m) "down"); [done|].
    apply andb_false_iff.
    destruct Hedge as [E|[E|[E|E]]]; [left|left|right|right];
      apply float_ltb_irrefl; auto.
Qed.

(** A latency of exactly 100 ms against the configured maximum of 100 ms. *)
Lemma is_interface_healthy_verdict_witness :
  is_interface_healthy Config.THRESHOLDS (Some (Lab.boundary_reading "ether1" 0)) = false.
Proof.
  pose proof (is_interface_healthy_verdict Config.THRESHOLDS
                (Some (Lab.boundary_reading "ether1" 0))) as (_ & _ & _ & Hedge).
  apply (Hedge (Lab.boundary_reading "ether1" 0)).
  - reflexivity.
  - right. left. reflexivity.
Defined.

(* ===================================================================== *)
(** ** The switch *)
(* ===================================================================== *)

Section Switch.

Context {R : Type} `{RouterLink R}.

(** C4.  When the priority update for the target interface reports
    failure, [perform_failover] returns [False] and leaves current_active
    and failover_timestamp (and the configured interface names) as they
    were; it does not even read the clock. *)
Theorem perform_failover_target_failure (im : InterfaceManager R) (e : Env)
    (from_interface to_interface : string) :
  (promote from_interface to_interface im).1 = false ->
  let out := perform_failover from_interface to_interface (im, e) in
  out.1 = false
  /\ current_active out.2.1 = current_active im
  /\ failover_timestamp out.2.1 = failover_timestamp im
  /\ primary_interface out.2.1 = primary_interface im
  /\ secondary_interface out.2.1 = secondary_interface im
  /\ reads out.2.2 = reads e.
Proof.
  intros Hfail. simpl. rewrite perform_failover_run.
  destruct (promote from_interface to_interface im) as [b2 r2].
  simpl in Hfail. subst b2. done.
Qed.

(** C10.  [perform_failover] first asks the router to lower the priority
    of the old interface (distance 10) and drops the answer, then asks it
    to raise the priority of the target (distance 1).  The result of the
    call is the answer to the second request alone, and current_active and
    failover_timestamp change exactly when that answer is success: a
    failed demotion of the old interface does not stop the switch.  The
    router the manager holds afterwards is the one that second request
    left, the first request having been made before it, whatever the two
    answers were; the two configured interfaces are untouched. *)
Theorem perform_failover_follows_target_update (im : InterfaceManager R) (e : Env)
    (from_interface to_interface : string) :
  let demoted := (demote from_interface im).1 in
  let promoted := (promote from_interface to_interface im).1 in
  let out := perform_failover from_interface to_interface (im, e) in
  trace_since e out.2.2
    [Log INFO (Performing_failover from_interface to_interface);
     Call_update_routing_priority from_interface 10 demoted;
     Call_update_routing_priority to_interface 1 promoted;
     if promoted
     then Log INFO (Failover_successful to_interface)
     else Log ERROR (Failover_failed to_interface)]
  /\ out.1 = promoted
  /\ current_active out.2.1 = (if promoted then to_interface else current_active im)
  /\ failover_timestamp out.2.1
     = (if promoted then Some (clock e (reads e)) else failover_timestamp im)
  /\ router out.2.1 = (promote from_interface to_interface im).2
  /\ primary_interface out.2.1 = primary_interface im
  /\ secondary_interface out.2.1 = secondary_interface im.
Proof.
  simpl. rewrite perform_failover_run.
  destruct (promote from_interface to_interface im) as [[] r2]; done.
Qed.

End Switch.

(** A router without a route through ether2: the switch to ether2 fails. *)
Lemma perform_failover_target_failure_witness :
  let im := Lab.manager Lab.primary_stopped_secondary_unrouted in
  let out := perform_failover "ether1" "ether2" (im, Lab.at_time 1000) in
  out.1 = false
  /\ current_active out.2.1 = "ether1"
  /\ failover_timestamp out.2.1 = None
  /\ primary_interface out.2.1 = "ether1"
  /\ secondary_interface out.2.1 = "ether2"
  /\ reads out.2.2 = 0.
Proof.
  apply (perform_failover_target_failure
           (Lab.manager Lab.primary_stopped_secondary_unrouted) (Lab.at_time 1000)
           "ether1" "ether2").
  vm_compute. reflexivity.
Defined.

(** A router without a route through ether1: the demotion of ether1 fails,
    the promotion of ether2 succeeds, and so does the switch. *)
Lemma perform_failover_follows_target_update_witness :
  let im := Lab.manager Lab.primary_unrouted in
  let out := perform_failover "ether1" "ether2" (im, Lab.at_time 1000) in
  (demote "ether1" im).1 = false
  /\ trace_since (Lab.at_time 1000) out.2.2
       [Log INFO (Performing_failover "ether1" "ether2");
        Call_update_routing_priority "ether1" 10 false;
        Call_update_routing_priority "ether2" 1 true;
        Log INFO (Failover_successful "ether2")]
  /\ out.1 = true
  /\ current_active out.2.1 = "ether2"
  /\ failover_timestamp out.2.1 = Some 1000%float
  /\ router out.2.1 = (promote "ether1" "ether2" im).2
  /\ primary_interface out.2.1 = "ether1"
  /\ secondary_interface out.2.1 = "ether2".
Proof.
  split; [vm_compute; reflexivity|].
  exact (perform_failover_follows_target_update
           (Lab.manager Lab.primary_unrouted) (Lab.at_time 1000) "ether1" "ether2").
Defined.

(** C7.  The primary interface is stopped and the secondary answers every
    ping, on a clock that starts at 1000 and ticks at every reading; the
    monitor has a writable store, empty at the start.  The third pass of
    the monitoring loop switches to ether2 and the router takes both
    updates: current_active is ether2 and failover_timestamp is 1009, the
    reading of the clock taken at the switch.  The store has by then
    received the six interface metrics of the three collections, and its
    failover_events table is still empty: no FailoverEvent has been
    recorded, neither for this switch nor for anything else. *)
Theorem successful_switch_records_no_event :
  let start := (Lab.monitor Lab.primary_stopped, Lab.ticking 1000) in
  let st := run_monitoring Config.THRESHOLDS Config.PING_TARGETS 3 start in
  let im := interface_manager st.1 in
  current_active im = "ether2"
  /\ failover_timestamp im = Some 1009%float
  /\ filter (fun ev => is_router_call ev = true) (trace st.2)
     = [Call_update_routing_priority "ether1" 10 true;
        Call_update_routing_priority "ether2" 1 true]
  /\ last (trace st.2) = Some (Log INFO (Failover_successful "ether2"))
  /\ Persistence.db_writable <$> persistence st.1 = Some true
  /\ interface <$> default [] (Persistence.interface_metrics <$> persistence st.1)
     = ["ether1"; "ether2"; "ether1"; "ether2"; "ether1"; "ether2"]
  /\ Persistence.failover_events <$> persistence st.1 = Some []
  /\ forall (t : float) (from_interface to_interface : string),
       ~ failover_event_recorded (persistence st.1) t from_interface to_interface.
Proof.
  cbv zeta.
  assert (Hstore : Persistence.failover_events <$> persistence
            (run_monitoring Config.THRESHOLDS Config.PING_TARGETS 3
               (Lab.monitor Lab.primary_stopped, Lab.ticking 1000)).1
          = Some []) by (vm_compute; reflexivity).
  repeat split; try (vm_compute; reflexivity).
  intros t from_interface to_interface (p & ev & Hp & Hev & _).
  rewrite Hp in Hstore. injection Hstore as Hnil.
  rewrite Hnil in Hev. by apply elem_of_nil in Hev.
Qed.

(* ===================================================================== *)
(** ** The consecutive-failure gate *)
(* ===================================================================== *)

Section Gate.

Context {R : Type} `{RouterLink R}.
Variable THRESHOLDS : Config.Thresholds.


End Gate.


(* ===================================================================== *)
(** ** Both interfaces unhealthy *)
(* ===================================================================== *)

Section BothUnhealthy.

Context {R : Type} `{RouterLink R}.
Variable THRESHOLDS : Config.Thresholds.

(** C8.  In a round in which the primary and the secondary interface are
    both unhealthy, whichever of the two is active,
    [evaluate_failover_need] answers (False, current interface), leaves
    the manager as it is and logs the warning that both are down; the
    round of [process_metrics] performs no switch (no routing update is
    asked for, current_active and the rest of the manager are unchanged)
    and logs a warning. *)
Theorem both_unhealthy_stays (self : NetworkMonitor R) (e : Env)
    (metrics : Py.dict InterfaceMetrics) :
  let im := interface_manager self in
  current_active im = primary_interface im \/ current_active im = secondary_interface im ->
  is_interface_healthy THRESHOLDS (Py.dict_get (primary_interface im) metrics) = false ->
  is_interface_healthy THRESHOLDS (Py.dict_get (secondary_interface im) metrics) = false ->
  is_Some (Py.dict_get (current_active im) metrics) ->
  let decision := evaluate_failover_need THRESHOLDS metrics (im, e) in
  let round := process_metrics THRESHOLDS metrics (self, e) in
  decision.1 = (false, current_active im)
  /\ decision.2.1 = im
  /\ trace_since e decision.2.2
       [Call_evaluate_failover_need; Log WARNING Kedua_interfaces_terdeteksi_down]
  /\ interface_manager round.2.1 = im
  /\ exists delta,
       trace_since e round.2.2 delta
       /\ Forall (fun ev => is_router_call ev = false) delta
       /\ Exists (fun ev => is_warning ev = true) delta.
Proof.
  intros im Hcur Hp Hs [m Hm] decision round.
  subst decision round.
  rewrite (evaluate_failover_need_both_unhealthy THRESHOLDS im e metrics Hcur Hp Hs).
  split; [done|]. split; [done|]. split; [done|].
  rewrite process_metrics_run. cbv zeta. cbn [fst snd]. fold im.
  pose proof (counted_trace THRESHOLDS metrics (self, e)) as Hc.
  pose proof (tracked_all_events_log THRESHOLDS metrics (consecutive_failures self)) as Hlog.
  destruct (gate _ _ _).
  - rewrite (evaluate_failover_need_both_unhealthy THRESHOLDS im _ metrics Hcur Hp Hs).
    simpl. split; [done|]. eexists. split; [|split].
    + eapply trace_since_trans; [exact Hc|apply trace_since_add].
    + apply Forall_app. split; [by apply is_log_not_router_call|by repeat constructor].
    + apply Exists_app. right. right. by left.
  - simpl. split; [done|]. eexists. split; [exact Hc|]. split.
    + by apply is_log_not_router_call.
    + apply (tracked_all_events_warning THRESHOLDS metrics _ _ m Hm).
      rewrite <- Hm. by destruct Hcur as [-> | ->].
Qed.

End BothUnhealthy.

(** Both interfaces are reported down while the secondary is the active
    one. *)
Lemma both_unhealthy_stays_witness :
  let self := NetworkMonitor_init (Lab.manager_on_secondary Lab.both_routed 1000) None in
  let im := interface_manager self in
  let e := Lab.at_time 1030 in
  let metrics := Lab.both_down 1030 in
  let decision := evaluate_failover_need Config.THRESHOLDS metrics (im, e) in
  let round := process_metrics Config.THRESHOLDS metrics (self, e) in
  decision.1 = (false, "ether2")
  /\ decision.2.1 = im
  /\ trace_since e decision.2.2
       [Call_evaluate_failover_need; Log WARNING Kedua_interfaces_terdeteksi_down]
  /\ interface_manager round.2.1 = im
  /\ exists delta,
       trace_since e round.2.2 delta
       /\ Forall (fun ev => is_router_call ev = false) delta
       /\ Exists (fun ev => is_warning ev = true) delta.
Proof.
  apply (both_unhealthy_stays Config.THRESHOLDS
           (NetworkMonitor_init (Lab.manager_on_secondary Lab.both_routed 1000) None)
           (Lab.at_time 1030) (Lab.both_down 1030)).
  - right. reflexivity.
  - vm_compute. reflexivity.
  - vm_compute. reflexivity.
  - eexists. reflexivity.
Defined.

(* ===================================================================== *)
(** ** Where the rounds part from the stated behaviour *)
(* ===================================================================== *)

Section RoundsAndTheGate.

Context {R : Type} `{RouterLink R}.
Variable THRESHOLDS : Config.Thresholds.

(** With a positive threshold, a round that finds the active interface
    healthy stops at the gate: the decision, and with it the switch back
    to the primary, is not reached, however long ago the failover was. *)
Lemma healthy_active_round_stops_at_gate (st : NetworkMonitor R * Env)
    (metrics : Py.dict InterfaceMetrics) (m : InterfaceMetrics) :
  (0 < Config.consecutive_failures THRESHOLDS)%Z ->
  Py.dict_wf metrics ->
  Py.dict_get (current_active (interface_manager st.1)) metrics = Some m ->
  is_interface_healthy THRESHOLDS (Some m) = true ->
  process_metrics THRESHOLDS metrics st = (tt, counted THRESHOLDS metrics st).
Proof.
  intros Hpos Hwf Hget Hm. apply process_metrics_below_gate; [done|].
  unfold count_at_gate, count_after. rewrite Hget, Hm.
  destruct (Z.ltb_spec 0 (failure_count st.1 (current_active (interface_manager st.1)))); lia.
Qed.

(** Once a round attempts a switch, the count of the interface that was
    active is 0 afterwards, whether or not the router took the switch. *)
Lemma attempted_switch_resets_count (st : NetworkMonitor R * Env)
    (metrics : Py.dict InterfaceMetrics) :
  let current := current_active (interface_manager st.1) in
  let st1 := counted THRESHOLDS metrics st in
  let decision :=
    (evaluate_failover_need THRESHOLDS metrics (interface_manager st.1, st1.2)).1 in
  gate THRESHOLDS st1.1 current = true ->
  decision.1 = true ->
  decision.2 <> current ->
  consecutive_failures (process_metrics THRESHOLDS metrics st).2.1 !! current = Some 0%Z.
Proof.
  cbv zeta. intros Hgate Hneed Hother. rewrite process_metrics_run. cbv zeta.
  rewrite Hgate.
  destruct (evaluate_failover_need _ _ _) as [[need target] [im2 e2]].
  simpl in Hneed, Hother. subst need.
  destruct (String.eqb_spec target (current_active (interface_manager st.1))); [done|].
  simpl. destruct (perform_failover _ _ _) as [b [im3 e3]]. simpl.
  apply lookup_insert_eq.
Qed.

End RoundsAndTheGate.

(** C1: what the code does where the claim expects the switch back.  The
    primary was down for three rounds and the failover to ether2 took place
    at time 1000.  From then on both interfaces are healthy.
    [evaluate_failover_need] itself would stay on ether2 at 1030 and name
    ether1 at 1061; but the rounds at 1030, 1061 and 1091 never call it:
    each of them leaves ether2 active and the trace empty. *)
Theorem switch_back_is_never_evaluated :
  let st0 := run_rounds Config.THRESHOLDS (replicate 3 (Lab.primary_down 1000))
               (Lab.monitor Lab.primary_stopped, Lab.at_time 1000) in
  let im := interface_manager st0.1 in
  let tick t st :=
    (process_metrics Config.THRESHOLDS (Lab.both_healthy t) (Lab.later t st)).2 in
  let st30 := tick 1030%float st0 in
  let st61 := tick 1061%float st30 in
  let st91 := tick 1091%float st61 in
  (current_active im = "ether2" /\ failover_timestamp im = Some 1000%float)
  /\ (evaluate_failover_need Config.THRESHOLDS (Lab.both_healthy 1030)
        (im, Lab.at_time 1030)).1 = (false, "ether2")
  /\ (evaluate_failover_need Config.THRESHOLDS (Lab.both_healthy 1061)
        (im, Lab.at_time 1061)).1 = (true, "ether1")
  /\ (current_active (interface_manager st30.1) = "ether2" /\ trace st30.2 = [])
  /\ (current_active (interface_manager st61.1) = "ether2" /\ trace st61.2 = [])
  /\ (current_active (interface_manager st91.1) = "ether2" /\ trace st91.2 = []).
Proof. vm_compute. repeat split; reflexivity. Qed.

(** C2: what the code does where the claim expects the count to be kept.
    The primary is down and the router has no route through ether2, so that
    raising the priority of ether2 fails.  Round three trips the gate and
    attempts the switch, which fails: ether1 stays active, and its failure
    count is 0 all the same.  Round four counts 1 and attempts nothing. *)
Theorem failed_switch_resets_failure_count :
  let st2 := run_rounds Config.THRESHOLDS (replicate 2 (Lab.primary_down 1000))
               (Lab.monitor Lab.primary_stopped_secondary_unrouted, Lab.at_time 1000) in
  let st3 := (process_metrics Config.THRESHOLDS (Lab.primary_down 1000) st2).2 in
  let st4 := (process_metrics Config.THRESHOLDS (Lab.primary_down 1000) st3).2 in
  trace_since st2.2 st3.2
    [Log WARNING (Interface_failure "ether1" 3 Py.inf 100);
     Call_evaluate_failover_need;
     Log INFO (Performing_failover "ether1" "ether2");
     Call_update_routing_priority "ether1" 10 true;
     Call_update_routing_priority "ether2" 1 false;
     Log ERROR (Failover_failed "ether2")]
  /\ current_active (interface_manager st3.1) = "ether1"
  /\ consecutive_failures st3.1 !! "ether1" = Some 0%Z
  /\ trace_since st3.2 st4.2 [Log WARNING (Interface_failure "ether1" 1 Py.inf 100)]
  /\ consecutive_failures st4.1 !! "ether1" = Some 1%Z.
Proof. vm_compute. repeat split; reflexivity. Qed.

(* ===================================================================== *)
(** ** The bounded history *)
(* ===================================================================== *)

Section History.

Context {R : Type} `{RouterLink R}.
Variable PING_TARGETS : list string.

(** C9.  After a call of [collect_metrics] no interface has more than 1000
    entries in the history.  The round has a reading for the primary and
    for the secondary interface; each reading [m] of the round is the last
    entry of its interface's history, behind the entries that were there,
    in their order: all of them while there were fewer than 1000, and all
    but the oldest one when there were 1000, which leaves exactly 1000.
    The history of an interface without a reading is not touched. *)
Theorem history_keeps_last_1000 (self : NetworkMonitor R) (e : Env) :
  bounded (metrics_history self) ->
  let out := collect_metrics PING_TARGETS (self, e) in
  let im := interface_manager self in
  bounded (metrics_history out.2.1)
  /\ is_Some (Py.dict_get (primary_interface im) out.1)
  /\ is_Some (Py.dict_get (secondary_interface im) out.1)
  /\ (forall i m, Py.dict_get i out.1 = Some m ->
        let old := default [] (metrics_history self !! i) in
        exists h,
          metrics_history out.2.1 !! i = Some h
          /\ last h = Some m
          /\ (length old < 1000 -> h = old ++ [m])
          /\ (length old = 1000 -> h = drop 1 old ++ [m] /\ length h = 1000))
  /\ (forall i, Py.dict_get i out.1 = None ->
        metrics_history out.2.1 !! i = metrics_history self !! i).
Proof.
  intros Hbounded out im.
  destruct (collect_metrics_run PING_TARGETS self e) as (Hmetrics & Hhistory).
  fold out in Hmetrics, Hhistory.
  destruct (check_interfaces_result PING_TARGETS im e) as (m1 & m2 & Hdict).
  fold im in Hmetrics. rewrite Hdict in Hmetrics.
  assert (Hwf : Py.dict_wf out.1).
  { rewrite Hmetrics. do 2 apply dict_set_wf. apply NoDup_nil_2. }
  assert (Hlookup := fun k => remember_all_lookup out.1 (metrics_history self) k Hwf).
  rewrite <- Hhistory in Hlookup.
  split; [|split; [|split; [|split]]].
  - intros i h Hi. rewrite Hlookup in Hi.
    destruct (Py.dict_get i out.1) as [m|].
    + injection Hi as <-. apply last_n_length.
    + by apply (Hbounded i).
  - rewrite Hmetrics.
    destruct (String.eqb_spec (primary_interface im) (secondary_interface im)) as [E|E].
    + rewrite E, dict_get_set_eq. by eexists.
    + rewrite dict_get_set_ne, dict_get_set_eq by done. by eexists.
  - rewrite Hmetrics, dict_get_set_eq. by eexists.
  - intros i m Hi old. rewrite Hlookup, Hi. fold old.
    eexists. split; [done|]. split; [by apply last_n_snoc_last; lia|]. split.
    + intros Hshort. apply last_n_short. rewrite length_app. simpl. lia.
    + intros Hfull. rewrite last_n_snoc_full by lia. split; [done|].
      rewrite length_app, length_drop. simpl. lia.
  - intros i Hi. by rewrite Hlookup, Hi.
Qed.

End History.

(** The history of ether1 holds 1000 readings and ether2 has none yet. *)
Lemma history_keeps_last_1000_witness :
  let self := Lab.monitor_with_full_history Lab.both_routed in
  let out := collect_metrics Config.PING_TARGETS (self, Lab.at_time 1000) in
  let im := interface_manager self in
  bounded (metrics_history out.2.1)
  /\ is_Some (Py.dict_get (primary_interface im) out.1)
  /\ is_Some (Py.dict_get (secondary_interface im) out.1)
  /\ (forall i m, Py.dict_get i out.1 = Some m ->
        let old := default [] (metrics_history self !! i) in
        exists h,
          metrics_history out.2.1 !! i = Some h
          /\ last h = Some m
          /\ (length old < 1000 -> h = old ++ [m])
          /\ (length old = 1000 -> h = drop 1 old ++ [m] /\ length h = 1000))
  /\ (forall i, Py.dict_get i out.1 = None ->
        metrics_history out.2.1 !! i = metrics_history self !! i).
Proof.
  apply (history_keeps_last_1000 Config.PING_TARGETS
           (Lab.monitor_with_full_history Lab.both_routed) (Lab.at_time 1000)).
  unfold Lab.monitor_with_full_history, with_metrics_history. cbn [metrics_history].
  intros i h.
  destruct (decide (i = "ether1")) as [->|Hne].
  - rewrite lookup_insert_eq. intros Hh. rewrite <- (inj Some _ _ Hh).
    by rewrite length_replicate.
  - rewrite lookup_insert_ne, lookup_empty by done. done.
Defined.

(* ===================================================================== *)
(** ** The aggregated metrics *)
(* ===================================================================== *)

(** C6 (as amended).  For an interface the router reports up,
    [get_interface_metrics] aggregates over the targets whose ping test
    returned a result: the latency is the mean of their average latencies,
    the packet loss the mean of their loss percentages, and without any
    result the latency is +inf and the loss 100.  The average latency of a
    target is the mean of the times of its answered pings; a target whose
    ping test ran without a single answer still returns a result, with
    average latency +inf and 100 % loss, and so enters both means. *)
Theorem aggregate_over_answering_targets (PING_TARGETS : list string)
    (im : InterfaceManager Mikrotik.MikrotikClient) (e : Env) (interface_name : string) :
  reported_down (Mikrotik.get_interface_status interface_name (router im)).1 = false ->
  let d := Mikrotik.device (router im) in
  let results :=
    omap (fun target =>
            Mikrotik.ping_stats interface_name target 5
              <$> Mikrotik.ping_rows d target interface_name 5) PING_TARGETS in
  let m := (get_interface_metrics PING_TARGETS interface_name (im, e)).1 in
  status m = "up"
  /\ latency m = aggregate Py.inf (avg_latency <$> results)
  /\ packet_loss m = aggregate 100 (ping_packet_loss <$> results)
  /\ (forall target rows,
        let times := omap Mikrotik.reply_time rows in
        let result := Mikrotik.ping_stats interface_name target 5 rows in
        avg_latency result = aggregate Py.inf times
        /\ (times = [] -> ping_packet_loss result = 100%float)).
Proof.
  intros Hup d results m.
  pose proof (mikrotik_status_up interface_name (router im) Hup) as [Hapi Hdev].
  pose proof (get_interface_metrics_up PING_TARGETS interface_name im e) as Hrun.
  cbn [get_interface_status Mikrotik.router_link] in Hrun.
  destruct (Mikrotik.get_interface_status interface_name (router im)) as [st r1].
  cbn [fst snd] in *. specialize (Hrun Hup).
  rewrite (mikrotik_ping_answers interface_name PING_TARGETS r1 Hapi) in Hrun.
  rewrite omap_id_fmap, Hdev in Hrun. fold d in Hrun. fold results in Hrun.
  subst m. rewrite Hrun. cbn [fst status latency packet_loss].
  split; [done|]. split; [done|]. split; [done|].
  intros target rows. cbv zeta. split; [done|].
  intros Hnone. unfold Mikrotik.ping_stats. cbn [ping_packet_loss].
  rewrite (no_reply_counted rows Hnone). vm_compute. reflexivity.
Qed.

(** 8.8.8.8 answers every ping in 20 ms and 1.1.1.1 answers none: the
    latency is +inf and the loss 50 %. *)
Lemma aggregate_over_answering_targets_witness :
  let im := Lab.manager Lab.one_target_silent in
  let m := (get_interface_metrics Config.PING_TARGETS "ether1" (im, Lab.at_time 1000)).1 in
  (latency m = infinity /\ packet_loss m = 50%float)
  /\ status m = "up"
  /\ latency m
     = aggregate Py.inf
         (avg_latency <$>
            omap (fun target =>
                    Mikrotik.ping_stats "ether1" target 5
                      <$> Mikrotik.ping_rows (Mikrotik.device (router im)) target "ether1" 5)
              Config.PING_TARGETS)
  /\ packet_loss m
     = aggregate 100
         (ping_packet_loss <$>
            omap (fun target =>
                    Mikrotik.ping_stats "ether1" target 5
                      <$> Mikrotik.ping_rows (Mikrotik.device (router im)) target "ether1" 5)
              Config.PING_TARGETS)
  /\ (forall target rows,
        let times := omap Mikrotik.reply_time rows in
        let result := Mikrotik.ping_stats "ether1" target 5 rows in
        avg_latency result = aggregate Py.inf times
        /\ (times = [] -> ping_packet_loss result = 100%float)).
Proof.
  split; [split; vm_compute; reflexivity|].
  apply (aggregate_over_answering_targets Config.PING_TARGETS
           (Lab.manager Lab.one_target_silent) (Lab.at_time 1000) "ether1").
  vm_compute. reflexivity.
Defined.

(** C6 as stated fails: ether1 is up, 8.8.8.8 answers every ping in 20 ms
    and 1.1.1.1 answers none.  The mean over the targets with a successful
    ping is 20 ms; the latency of the metrics is not (it is +inf). *)
Lemma silent_target_enters_the_mean :
  let im := Lab.manager Lab.one_target_silent in
  let m := (get_interface_metrics Config.PING_TARGETS "ether1" (im, Lab.at_time 1000)).1 in
  let per_target := [Lab.answered (replicate 5 20%float); Lab.timed_out 5] in
  omap (fun target => Mikrotik.ping_rows (Mikrotik.device (router im)) target "ether1" 5)
    Config.PING_TARGETS = per_target
  /\ status m = "up"
  /\ mean_over_answering_targets per_target = 20%float
  /\ latency m <> mean_over_answering_targets per_target.
Proof.
  split; [vm_compute; reflexivity|].
  split; [vm_compute; reflexivity|].
  split; [vm_compute; reflexivity|].
  intros Heq. apply (f_equal (fun x => (x <? 100)%float)) in Heq.
  vm_compute in Heq. discriminate.
Qed.

(* ===================================================================== *)
(** ** Invariants and the failover scenario *)
(* ===================================================================== *)

Section Invariants.

Context {R : Type} `{RouterLink R}.
Variable THRESHOLDS : Config.Thresholds.

(** X1.  A round keeps the configured interface names, and keeps the active
    interface one of the two. *)
Theorem process_metrics_keeps_active_configured (self : NetworkMonitor R) (e : Env)
    (metrics : Py.dict InterfaceMetrics) :
  active_is_configured (interface_manager self) ->
  let out := process_metrics THRESHOLDS metrics (self, e) in
  primary_interface (interface_manager out.2.1) = primary_interface (interface_manager self)
  /\ secondary_interface (interface_manager out.2.1)
     = secondary_interface (interface_manager self)
  /\ active_is_configured (interface_manager out.2.1).
Proof.
  intros Hactive. cbv zeta. rewrite process_metrics_run. cbv zeta. cbn [fst snd].
  case_match; [|done].
  pose proof (evaluate_failover_need_manager THRESHOLDS (interface_manager self)
                (counted THRESHOLDS metrics (self, e)).2 metrics) as Him.
  pose proof (evaluate_failover_need_target THRESHOLDS (interface_manager self)
                (counted THRESHOLDS metrics (self, e)).2 metrics) as Htarget.
  destruct (evaluate_failover_need _ _ _) as [[need target] [im2 e2]].
  cbn [fst snd] in *. subst im2.
  case_match; [|done].
  rewrite perform_failover_run. cbv zeta.
  destruct (promote _ _ _) as [[] r2]; [|done].
  unfold active_is_configured in *. cbn.
  split; [done|]. split; [done|].
  destruct Htarget as [-> | [-> | ->]]; auto.
Qed.

(** X2.  A round keeps every failure count at 0 or above. *)
Theorem process_metrics_keeps_counts_non_negative (self : NetworkMonitor R) (e : Env)
    (metrics : Py.dict InterfaceMetrics) :
  counts_non_negative self ->
  counts_non_negative (process_metrics THRESHOLDS metrics (self, e)).2.1.
Proof.
  unfold counts_non_negative. intros Hcounts.
  pose proof (tracked_all_non_negative THRESHOLDS metrics _ Hcounts) as Htracked.
  rewrite process_metrics_run. cbv zeta. cbn [fst snd].
  case_match; [|done].
  destruct (evaluate_failover_need _ _ _) as [[need target] [im2 e2]].
  case_match; [|done].
  destruct (perform_failover _ _ _) as [b [im3 e3]]. cbn.
  by apply map_Forall_insert_2.
Qed.

End Invariants.

(** The first round with the primary down, on a fresh monitor. *)
Lemma process_metrics_keeps_active_configured_witness :
  let self := Lab.monitor Lab.primary_stopped in
  let out := process_metrics Config.THRESHOLDS (Lab.primary_down 1000)
               (self, Lab.at_time 1000) in
  primary_interface (interface_manager out.2.1) = "ether1"
  /\ secondary_interface (interface_manager out.2.1) = "ether2"
  /\ active_is_configured (interface_manager out.2.1).
Proof.
  apply (process_metrics_keeps_active_configured Config.THRESHOLDS
           (Lab.monitor Lab.primary_stopped) (Lab.at_time 1000) (Lab.primary_down 1000)).
  left. reflexivity.
Defined.

(** The same round: no count was taken before it. *)
Lemma process_metrics_keeps_counts_non_negative_witness :
  counts_non_negative
    (process_metrics Config.THRESHOLDS (Lab.primary_down 1000)
       (Lab.monitor Lab.primary_stopped, Lab.at_time 1000)).2.1.
Proof.
  apply (process_metrics_keeps_counts_non_negative Config.THRESHOLDS
           (Lab.monitor Lab.primary_stopped) (Lab.at_time 1000) (Lab.primary_down 1000)).
  apply map_Forall_empty.
Defined.

(** X3.  The primary interface is stopped and the secondary answers every
    ping, on a clock that starts at 1000 and ticks at every reading.  After
    two passes of the monitoring loop ether1 is still active, with a failure
    count of 2, no failover_timestamp, a router that was asked for no
    update and an unchanged route table.  The third pass makes ether2 the
    active interface: the router is asked to set the distance of the route
    through ether1 to 10 and then that of the route through ether2 to 1,
    the route table shows both, the count of ether1 is 0, and
    failover_timestamp is 1009: the reading of the clock taken at the
    switch, the tenth one, after the nine readings of the three
    collections. *)
Theorem primary_down_three_rounds_switches :
  let start := (Lab.monitor Lab.primary_stopped, Lab.ticking 1000) in
  let st2 := run_monitoring Config.THRESHOLDS Config.PING_TARGETS 2 start in
  let st3 := run_monitoring Config.THRESHOLDS Config.PING_TARGETS 3 start in
  let im2 := interface_manager st2.1 in
  let im3 := interface_manager st3.1 in
  (current_active im2 = "ether1"
   /\ failover_timestamp im2 = None
   /\ consecutive_failures st2.1 !! "ether1" = Some 2%Z
   /\ filter (fun ev => is_router_call ev = true) (trace st2.2) = []
   /\ filter (fun ev => is_evaluation ev = true) (trace st2.2) = []
   /\ Lab.route_table (router im2)
      = [(Some "ether1", Some "1"); (Some "ether2", Some "1")]
   /\ reads st2.2 = 6)
  /\ (current_active im3 = "ether2"
      /\ failover_timestamp im3 = Some (clock start.2 9)
      /\ failover_timestamp im3 = Some 1009%float
      /\ reads st3.2 = 10
      /\ filter (fun ev => is_router_call ev = true) (trace st3.2)
         = [Call_update_routing_priority "ether1" 10 true;
            Call_update_routing_priority "ether2" 1 true]
      /\ filter (fun ev => is_evaluation ev = true) (trace st3.2)
         = [Call_evaluate_failover_need]
      /\ last (trace st3.2) = Some (Log INFO (Failover_successful "ether2"))
      /\ Lab.route_table (router im3)
         = [(Some "ether1", Some "10"); (Some "ether2", Some "1")]
      /\ consecutive_failures st3.1 !! "ether1" = Some 0%Z).
Proof. vm_compute. repeat split; reflexivity. Qed.

(* ===================================================================== *)
(** ** The router client *)
(* ===================================================================== *)

(** X4.  When [update_routing_priority] returns [True], the route table
    has as many routes as before, at least one of them went through the
    interface, every route keeps all its attributes but the distance, and
    every route whose gateway is not empty and contains the interface name
    as a substring now has the new distance, written as a string. *)
Theorem update_routing_priority_sets_distance (interface_name : string)
    (new_distance : Z) (c : Mikrotik.MikrotikClient) :
  let out := Mikrotik.update_routing_priority interface_name new_distance c in
  out.1 = true ->
  exists rows rows',
    Mikrotik.route_rows (Mikrotik.device c) = Some rows
    /\ Mikrotik.route_rows (Mikrotik.device out.2) = Some rows'
    /\ Mikrotik.api out.2 = true
    /\ length rows' = length rows
    /\ Forall2 (rewritten (pretty new_distance)) rows rows'
    /\ Exists (fun r => Mikrotik.routes_through interface_name r = true) rows
    /\ (forall r' gateway before after,
          r' ∈ rows' ->
          r' !! "gateway" = Some gateway ->
          gateway <> EmptyString ->
          gateway = (before +:+ interface_name +:+ after)%string ->
          r' !! "distance" = Some (pretty new_distance)).
Proof.
  cbv zeta. destruct (Mikrotik.update_routing_priority _ _ _) as [ok c'] eqn:Hrun.
  simpl. intros ->.
  destruct (update_routing_priority_done _ _ _ _ Hrun)
    as (rows & rows' & Hrows & -> & Hrw & Hsome & Hset).
  exists rows, rows'. simpl. repeat split; try done.
  - symmetry. by eapply Forall2_length.
  - intros r' gateway before after Hin Hgw Hne Hsub.
    rewrite Forall_forall in Hset. apply (Hset r' Hin).
    apply routes_through_spec. by exists gateway, before, after.
Qed.

(** Lowering the priority of ether1 on a router with a route through each
    interface. *)
Lemma update_routing_priority_sets_distance_witness :
  let out := Mikrotik.update_routing_priority "ether1" 10 Lab.both_routed in
  Lab.route_table out.2 = [(Some "ether1", Some "10"); (Some "ether2", Some "1")]
  /\ exists rows rows',
       Mikrotik.route_rows (Mikrotik.device Lab.both_routed) = Some rows
       /\ Mikrotik.route_rows (Mikrotik.device out.2) = Some rows'
       /\ Mikrotik.api out.2 = true
       /\ length rows' = length rows
       /\ Forall2 (rewritten (pretty 10%Z)) rows rows'
       /\ Exists (fun r => Mikrotik.routes_through "ether1" r = true) rows
       /\ (forall r' gateway before after,
             r' ∈ rows' ->
             r' !! "gateway" = Some gateway ->
             gateway <> EmptyString ->
             gateway = (before +:+ "ether1" +:+ after)%string ->
             r' !! "distance" = Some (pretty 10%Z)).
Proof.
  split; [vm_compute; reflexivity|].
  apply (update_routing_priority_sets_distance "ether1" 10 Lab.both_routed).
  vm_compute. reflexivity.
Defined.

(** X5.  A client without an api whose login is refused fails safe: the
    interface list is empty, the status of an interface and the result of
    a ping test are [None], a priority update returns [False], and the
    client is left as it was.  [get_interface_metrics] then reports the
    interface down (latency +inf, loss 100) without a ping test, and such
    metrics are unhealthy for every threshold. *)
Theorem unreachable_router_fails_safe (c : Mikrotik.MikrotikClient)
    (interface_name target : string) (count new_distance : Z) :
  unreachable c ->
  Mikrotik.get_interfaces c = ([], c)
  /\ Mikrotik.get_interface_status interface_name c = (None, c)
  /\ Mikrotik.check_interface_connectivity interface_name target count c = (None, c)
  /\ Mikrotik.update_routing_priority interface_name new_distance c = (false, c)
  /\ forall PING_TARGETS THRESHOLDS (im : InterfaceManager Mikrotik.MikrotikClient) e,
       router im = c ->
       let out := get_interface_metrics PING_TARGETS interface_name (im, e) in
       status out.1 = "down"
       /\ latency out.1 = Py.inf
       /\ packet_loss out.1 = 100%float
       /\ router out.2.1 = c
       /\ is_interface_healthy THRESHOLDS (Some out.1) = false.
Proof.
  intros [Hapi Hlogin].
  assert (Hensure : Mikrotik.ensure_api c = (false, c)).
  { unfold Mikrotik.ensure_api. by rewrite Hapi, Hlogin. }
  assert (Hstatus : Mikrotik.get_interface_status interface_name c = (None, c)).
  { unfold Mikrotik.get_interface_status, Mikrotik.get_interfaces. by rewrite Hensure. }
  split; [unfold Mikrotik.get_interfaces; by rewrite Hensure|].
  split; [done|].
  split; [unfold Mikrotik.check_interface_connectivity; by rewrite Hensure|].
  split; [unfold Mikrotik.update_routing_priority; by rewrite Hensure|].
  intros PING_TARGETS THRESHOLDS im e Him. cbv zeta.
  assert (Hdown : reported_down (get_interface_status interface_name (router im)).1 = true).
  { cbn [get_interface_status Mikrotik.router_link]. by rewrite Him, Hstatus. }
  rewrite (get_interface_metrics_down_run PING_TARGETS interface_name im e Hdown).
  cbn [get_interface_status Mikrotik.router_link]. rewrite Him, Hstatus. done.
Qed.

Lemma unreachable_router_fails_safe_witness :
  Mikrotik.get_interfaces Lab.unplugged = ([], Lab.unplugged)
  /\ Mikrotik.get_interface_status "ether1" Lab.unplugged = (None, Lab.unplugged)
  /\ Mikrotik.check_interface_connectivity "ether1" "8.8.8.8" 5 Lab.unplugged
     = (None, Lab.unplugged)
  /\ Mikrotik.update_routing_priority "ether1" 10 Lab.unplugged = (false, Lab.unplugged)
  /\ forall PING_TARGETS THRESHOLDS (im : InterfaceManager Mikrotik.MikrotikClient) e,
       router im = Lab.unplugged ->
       let out := get_interface_metrics PING_TARGETS "ether1" (im, e) in
       status out.1 = "down"
       /\ latency out.1 = Py.inf
       /\ packet_loss out.1 = 100%float
       /\ router out.2.1 = Lab.unplugged
       /\ is_interface_healthy THRESHOLDS (Some out.1) = false.
Proof.
  apply (unreachable_router_fails_safe Lab.unplugged "ether1" "8.8.8.8" 5 10).
  split; reflexivity.
Defined.

(** X6.  [get_interface_status] only ever returns one of the interface
    rows of the device, and one that carries the asked name; when a client
    that can reach the router gets the list and finds [None], no row
    carries that name.  The device is not changed by the query. *)
Theorem get_interface_status_finds_named_row (interface_name : string)
    (c : Mikrotik.MikrotikClient) :
  let out := Mikrotik.get_interface_status interface_name c in
  (forall r, out.1 = Some r ->
     r !! "name" = Some interface_name
     /\ exists rows, Mikrotik.interface_rows (Mikrotik.device c) = Some rows /\ r ∈ rows)
  /\ (forall rows, out.1 = None ->
        Mikrotik.api c = true \/ Mikrotik.accepts_login (Mikrotik.device c) = true ->
        Mikrotik.interface_rows (Mikrotik.device c) = Some rows ->
        forall r, r ∈ rows -> r !! "name" <> Some interface_name)
  /\ Mikrotik.device out.2 = Mikrotik.device c.
Proof.
  cbv zeta. unfold Mikrotik.get_interface_status, Mikrotik.get_interfaces, Mikrotik.ensure_api.
  destruct (Mikrotik.api c) eqn:Hapi;
    [|destruct (Mikrotik.accepts_login (Mikrotik.device c)) eqn:Hlogin];
    cbn [Mikrotik.device Mikrotik.api];
    destruct (Mikrotik.interface_rows (Mikrotik.device c)) as [rows|] eqn:Hrows;
    cbn [fst snd]; (split; [|split; [|done]]);
    try (intros r Hr; done);
    try (intros rows0 _ [?|?]; done);
    try (intros r Hhead; apply head_Some_elem_of, list_elem_of_filter in Hhead as [? ?];
         split; [done|by exists rows]);
    try (intros rows0 Hhead _ [= <-] r Hin Hname;
         apply head_None in Hhead;
         assert (Hr : r ∈ filter (fun r : row => r !! "name" = Some interface_name) rows)
           by (by apply list_elem_of_filter);
         rewrite Hhead in Hr; by apply elem_of_nil in Hr).
Qed.

(** X7.  After [disconnect] the client has no api, and the next call puts
    things right as long as the router accepts the login: on a connected
    client, each of the three requests gives after [disconnect] what it
    would have given without. *)
Theorem disconnect_is_undone_by_the_next_call (c : Mikrotik.MikrotikClient)
    (interface_name target : string) (count new_distance : Z) :
  Mikrotik.api c = true ->
  Mikrotik.accepts_login (Mikrotik.device c) = true ->
  Mikrotik.api (Mikrotik.disconnect c) = false
  /\ Mikrotik.get_interface_status interface_name (Mikrotik.disconnect c)
     = Mikrotik.get_interface_status interface_name c
  /\ Mikrotik.check_interface_connectivity interface_name target count (Mikrotik.disconnect c)
     = Mikrotik.check_interface_connectivity interface_name target count c
  /\ Mikrotik.update_routing_priority interface_name new_distance (Mikrotik.disconnect c)
     = Mikrotik.update_routing_priority interface_name new_distance c.
Proof.
  intros Hapi Hlogin.
  assert (Hensure : Mikrotik.ensure_api (Mikrotik.disconnect c) = Mikrotik.ensure_api c).
  { unfold Mikrotik.ensure_api, Mikrotik.disconnect. rewrite Hapi. simpl.
    rewrite Hlogin. destruct c; simpl in *; by subst. }
  split; [unfold Mikrotik.disconnect; by rewrite Hapi|].
  unfold Mikrotik.get_interface_status, Mikrotik.get_interfaces,
    Mikrotik.check_interface_connectivity, Mikrotik.update_routing_priority.
  by rewrite Hensure.
Qed.

Lemma disconnect_is_undone_by_the_next_call_witness :
  let c := (Mikrotik.connect Lab.both_routed).2 in
  Mikrotik.api (Mikrotik.disconnect c) = false
  /\ Mikrotik.get_interface_status "ether1" (Mikrotik.disconnect c)
     = Mikrotik.get_interface_status "ether1" c
  /\ Mikrotik.check_interface_connectivity "ether1" "8.8.8.8" 5 (Mikrotik.disconnect c)
     = Mikrotik.check_interface_connectivity "ether1" "8.8.8.8" 5 c
  /\ Mikrotik.update_routing_priority "ether1" 10 (Mikrotik.disconnect c)
     = Mikrotik.update_routing_priority "ether1" 10 c.
Proof.
  apply (disconnect_is_undone_by_the_next_call (Mikrotik.connect Lab.both_routed).2
           "ether1" "8.8.8.8" 5 10); reflexivity.
Defined.

(* ===================================================================== *)
(** ** The readings of a round *)
(* ===================================================================== *)

Section Readings.

Context {R : Type} `{RouterLink R}.
Variable PING_TARGETS : list string.

(** X8.  For an interface the router reports down or does not know,
    [get_interface_metrics] returns status down, latency +inf and packet
    loss 100 with the time of the clock, logs one warning, and asks the
    router for nothing after the status: no ping test is made.  The
    metrics are unhealthy for every threshold. *)
Theorem down_interface_is_not_pinged (THRESHOLDS : Config.Thresholds)
    (interface_name : string) (im : InterfaceManager R) (e : Env) :
  let asked := get_interface_status interface_name (router im) in
  reported_down asked.1 = true ->
  let out := get_interface_metrics PING_TARGETS interface_name (im, e) in
  out.1 = {| interface := interface_name;
             status := "down";
             latency := Py.inf;
             packet_loss := 100;
             timestamp := clock e (reads e) |}
  /\ router out.2.1 = asked.2
  /\ trace_since e out.2.2 [Log WARNING (Interface_is_down_or_not_found interface_name)]
  /\ is_interface_healthy THRESHOLDS (Some out.1) = false.
Proof.
  intros asked Hdown out. subst out asked.
  by rewrite (get_interface_metrics_down_run PING_TARGETS interface_name im e Hdown).
Qed.

(** X9.  [check_interfaces] returns a dict with a reading under the name
    of the primary and under the name of the secondary interface and under
    no other key, and each reading carries the name it is stored under.
    The call changes nothing of the manager but the router, and reads the
    clock twice. *)
Theorem check_interfaces_reads_both (im : InterfaceManager R) (e : Env) :
  let out := check_interfaces PING_TARGETS (im, e) in
  Py.dict_wf out.1
  /\ is_Some (Py.dict_get (primary_interface im) out.1)
  /\ is_Some (Py.dict_get (secondary_interface im) out.1)
  /\ (forall k m, Py.dict_get k out.1 = Some m ->
        (k = primary_interface im \/ k = secondary_interface im) /\ interface m = k)
  /\ out.2.1 = with_router (router out.2.1) im
  /\ reads out.2.2 = S (S (reads e)).
Proof.
  cbv zeta.
  destruct (check_interfaces_run PING_TARGETS im e)
    as (m1 & m2 & Hdict & Hn1 & Hn2 & Him & _ & Hreads & _).
  rewrite Hdict.
  split; [do 2 apply dict_set_wf; apply NoDup_nil_2|].
  split.
  { destruct (String.eqb_spec (primary_interface im) (secondary_interface im)) as [E|E].
    - rewrite E, dict_get_set_eq. by eexists.
    - rewrite dict_get_set_ne, dict_get_set_eq by done. by eexists. }
  split; [rewrite dict_get_set_eq; by eexists|].
  split; [|done].
  intros k m.
  destruct (String.eqb_spec k (secondary_interface im)) as [->|Hs].
  - rewrite dict_get_set_eq. intros [= <-]. auto.
  - rewrite dict_get_set_ne by done.
    destruct (String.eqb_spec k (primary_interface im)) as [->|Hp].
    + rewrite dict_get_set_eq. intros [= <-]. auto.
    + rewrite dict_get_set_ne by done. done.
Qed.

End Readings.

(** ether1 is stopped on the router. *)
Lemma down_interface_is_not_pinged_witness :
  let im := Lab.manager Lab.primary_stopped in
  let e := Lab.at_time 1000 in
  let out := get_interface_metrics Config.PING_TARGETS "ether1" (im, e) in
  out.1 = Lab.down_reading "ether1" 1000
  /\ router out.2.1 = (get_interface_status "ether1" (router im)).2
  /\ trace_since e out.2.2 [Log WARNING (Interface_is_down_or_not_found "ether1")]
  /\ is_interface_healthy Config.THRESHOLDS (Some out.1) = false.
Proof.
  apply (down_interface_is_not_pinged Config.PING_TARGETS Config.THRESHOLDS
           "ether1" (Lab.manager Lab.primary_stopped) (Lab.at_time 1000)).
  vm_compute. reflexivity.
Defined.

(* ===================================================================== *)
(** ** The decision *)
(* ===================================================================== *)

Section Decision.

Context {R : Type} `{RouterLink R}.
Variable THRESHOLDS : Config.Thresholds.

(** X10.  Whenever [evaluate_failover_need] asks for a failover, the target
    is the primary or the secondary interface and its reading in the
    metrics is healthy; when the two configured names differ, the target is
    not the active interface. *)
Theorem failover_target_is_healthy (im : InterfaceManager R) (e : Env)
    (metrics : Py.dict InterfaceMetrics) :
  let decision := (evaluate_failover_need THRESHOLDS metrics (im, e)).1 in
  decision.1 = true ->
  (decision.2 = primary_interface im \/ decision.2 = secondary_interface im)
  /\ is_interface_healthy THRESHOLDS (Py.dict_get decision.2 metrics) = true
  /\ (primary_interface im <> secondary_interface im -> decision.2 <> current_active im).
Proof.
  cbv zeta. unfold evaluate_failover_need. unfold_prog. cbn [fst snd].
  repeat (case_match; cbn [fst snd]); try done; intros _;
    repeat match goal with
    | H : (_ && _) = true |- _ => apply andb_prop in H as [? ?]
    | H : String.eqb _ _ = true |- _ => apply String.eqb_eq in H
    end;
    (split; [auto|split; [done|congruence]]).
Qed.

(** X11.  When the active interface, one of the two configured ones with
    different names, has an unhealthy reading and its partner a healthy
    one, [evaluate_failover_need] asks for a failover to the partner; it
    neither changes the manager nor reads the clock nor logs. *)
Theorem unhealthy_active_fails_over_to_partner (im : InterfaceManager R) (e : Env)
    (metrics : Py.dict InterfaceMetrics) :
  active_is_configured im ->
  primary_interface im <> secondary_interface im ->
  is_interface_healthy THRESHOLDS (Py.dict_get (current_active im) metrics) = false ->
  is_interface_healthy THRESHOLDS
    (Py.dict_get (other_interface im (current_active im)) metrics) = true ->
  let out := evaluate_failover_need THRESHOLDS metrics (im, e) in
  out.1 = (true, other_interface im (current_active im))
  /\ other_interface im (current_active im) <> current_active im
  /\ out.2.1 = im
  /\ reads out.2.2 = reads e
  /\ trace_since e out.2.2 [Call_evaluate_failover_need].
Proof.
  intros Hcur Hne Hbad Hgood. cbv zeta.
  rewrite (evaluate_failover_need_switch THRESHOLDS im e metrics Hcur Hne Hbad Hgood).
  repeat split.
  destruct Hcur as [Hcur|Hcur]; rewrite Hcur.
  - rewrite other_interface_primary. congruence.
  - rewrite other_interface_secondary by done. congruence.
Qed.

(** X12.  While the active interface has a healthy reading:
    on the primary (the two names differing) the decision is to stay;
    on the secondary with an unhealthy primary it is to stay;
    on the secondary with a healthy primary it is the switch back to the
    primary exactly when failover_timestamp is set, is not zero, and the
    clock is more than failover_timeout past it.  A failover_timestamp of
    0.0 counts as not set. *)
Theorem healthy_active_stays_or_switches_back (im : InterfaceManager R) (e : Env)
    (metrics : Py.dict InterfaceMetrics) :
  is_interface_healthy THRESHOLDS (Py.dict_get (current_active im) metrics) = true ->
  let decision := (evaluate_failover_need THRESHOLDS metrics (im, e)).1 in
  let primary_healthy :=
    is_interface_healthy THRESHOLDS (Py.dict_get (primary_interface im) metrics) in
  (current_active im <> secondary_interface im -> decision = (false, current_active im))
  /\ (primary_healthy = false -> decision = (false, current_active im))
  /\ (current_active im = secondary_interface im -> primary_healthy = true ->
      decision =
        match failover_timestamp im with
        | Some since =>
            if Py.float_truthy since
               && (Config.failover_timeout THRESHOLDS <? clock e (reads e) - since)%float
            then (true, primary_interface im)
            else (false, secondary_interface im)
        | None => (false, secondary_interface im)
        end)
  /\ (failover_timestamp im = None \/ failover_timestamp im = Some 0%float ->
      decision = (false, current_active im)).
Proof.
  intros Hcur. cbv zeta. unfold evaluate_failover_need. unfold_prog. cbn [fst snd].
  rewrite Hcur.
  split; [|split; [|split]].
  - intros Hs. by destruct (String.eqb_spec (current_active im) (secondary_interface im)).
  - intros ->. by rewrite andb_false_r.
  - intros Hs ->. rewrite Hs, String.eqb_refl. cbn [andb].
    destruct (failover_timestamp im) as [since|]; cbn; [|done].
    destruct (Py.float_truthy since); cbn; [|done].
    by destruct (PrimFloat.ltb _ _).
  - intros [-> | ->]; cbn; by rewrite !andb_false_r.
Qed.

End Decision.

(** The secondary is active since 1000 and both readings are healthy at
    1061: the decision is the switch back to ether1, a healthy target. *)
Lemma failover_target_is_healthy_witness :
  let im := Lab.manager_on_secondary Lab.both_routed 1000 in
  let decision :=
    (evaluate_failover_need Config.THRESHOLDS (Lab.both_healthy 1061)
       (im, Lab.at_time 1061)).1 in
  decision = (true, "ether1")
  /\ (decision.2 = primary_interface im \/ decision.2 = secondary_interface im)
  /\ is_interface_healthy Config.THRESHOLDS
       (Py.dict_get decision.2 (Lab.both_healthy 1061)) = true
  /\ (primary_interface im <> secondary_interface im -> decision.2 <> current_active im).
Proof.
  split; [vm_compute; reflexivity|].
  apply (failover_target_is_healthy Config.THRESHOLDS
           (Lab.manager_on_secondary Lab.both_routed 1000) (Lab.at_time 1061)
           (Lab.both_healthy 1061)).
  vm_compute. reflexivity.
Defined.

(** The primary is active and down, the secondary is healthy. *)
Lemma unhealthy_active_fails_over_to_partner_witness :
  let im := Lab.manager Lab.primary_stopped in
  let e := Lab.at_time 1000 in
  let out := evaluate_failover_need Config.THRESHOLDS (Lab.primary_down 1000) (im, e) in
  out.1 = (true, "ether2")
  /\ "ether2" <> "ether1"
  /\ out.2.1 = im
  /\ reads out.2.2 = reads e
  /\ trace_since e out.2.2 [Call_evaluate_failover_need].
Proof.
  apply (unhealthy_active_fails_over_to_partner Config.THRESHOLDS
           (Lab.manager Lab.primary_stopped) (Lab.at_time 1000) (Lab.primary_down 1000)).
  - left. reflexivity.
  - discriminate.
  - vm_compute. reflexivity.
  - vm_compute. reflexivity.
Defined.

(** The secondary is active since 1000 and both readings are healthy: at
    1030 the decision is to stay. *)
Lemma healthy_active_stays_or_switches_back_witness :
  let im := Lab.manager_on_secondary Lab.both_routed 1000 in
  let decision :=
    (evaluate_failover_need Config.THRESHOLDS (Lab.both_healthy 1030)
       (im, Lab.at_time 1030)).1 in
  decision = (false, "ether2")
  /\ (current_active im <> secondary_interface im -> decision = (false, current_active im))
  /\ (is_interface_healthy Config.THRESHOLDS
        (Py.dict_get (primary_interface im) (Lab.both_healthy 1030)) = false ->
      decision = (false, current_active im))
  /\ (current_active im = secondary_interface im ->
      is_interface_healthy Config.THRESHOLDS
        (Py.dict_get (primary_interface im) (Lab.both_healthy 1030)) = true ->
      decision =
        match failover_timestamp im with
        | Some since =>
            if Py.float_truthy since
               && (Config.failover_timeout Config.THRESHOLDS <? 1030 - since)%float
            then (true, primary_interface im)
            else (false, secondary_interface im)
        | None => (false, secondary_interface im)
        end)
  /\ (failover_timestamp im = None \/ failover_timestamp im = Some 0%float ->
      decision = (false, current_active im)).
Proof.
  split; [vm_compute; reflexivity|].
  apply (healthy_active_stays_or_switches_back Config.THRESHOLDS
           (Lab.manager_on_secondary Lab.both_routed 1000) (Lab.at_time 1030)
           (Lab.both_healthy 1030)).
  vm_compute. reflexivity.
Defined.

(* ===================================================================== *)
(** ** A round of [process_metrics] *)
(* ===================================================================== *)

Section Round.

Context {R : Type} `{RouterLink R}.
Variable THRESHOLDS : Config.Thresholds.

(** X13.  A round in which the active interface (one of the two configured
    ones, with different names) has an unhealthy reading that brings its
    count to the threshold, its partner has a healthy reading, and the
    router takes the priority update for the partner: afterwards the
    partner is active, failover_timestamp is the reading of the clock, the
    router is as the two updates left it, and the count of the interface
    that was active is 0. *)
Theorem gated_round_fails_over (self : NetworkMonitor R) (e : Env)
    (metrics : Py.dict InterfaceMetrics) (m : InterfaceMetrics) :
  let im := interface_manager self in
  let current := current_active im in
  let target := other_interface im current in
  Py.dict_wf metrics ->
  active_is_configured im ->
  primary_interface im <> secondary_interface im ->
  Py.dict_get current metrics = Some m ->
  is_interface_healthy THRESHOLDS (Some m) = false ->
  (Config.consecutive_failures THRESHOLDS <= failure_count self current + 1)%Z ->
  is_interface_healthy THRESHOLDS (Py.dict_get target metrics) = true ->
  (promote current target im).1 = true ->
  let out := process_metrics THRESHOLDS metrics (self, e) in
  let im' := interface_manager out.2.1 in
  current_active im' = target
  /\ failover_timestamp im' = Some (clock e (reads e))
  /\ router im' = (promote current target im).2
  /\ consecutive_failures out.2.1 !! current = Some 0%Z
  /\ reads out.2.2 = S (reads e).
Proof.
  intros im current target Hwf Hcur Hne Hget Hbad Hcount Hgood Hpromote. cbv zeta.
  rewrite process_metrics_run. cbv zeta. cbn [fst snd]. fold im. fold current.
  unfold gate. rewrite (counted_count THRESHOLDS metrics (self, e) current Hwf), Hget.
  unfold count_at_gate. cbn [fst]. rewrite Hget, Hbad. unfold count_after.
  rewrite (proj2 (Z.leb_le _ _) Hcount).
  rewrite (evaluate_failover_need_switch THRESHOLDS im _ metrics Hcur Hne);
    [|fold current; by rewrite Hget|done].
  fold current. fold target.
  assert (Hother : target <> current).
  { subst target current. destruct Hcur as [Hc|Hc]; rewrite Hc.
    - rewrite other_interface_primary. congruence.
    - rewrite other_interface_secondary by done. congruence. }
  destruct (String.eqb_spec target current); [done|]. cbn [andb negb].
  rewrite perform_failover_run. cbv zeta.
  destruct (promote current target im) as [b2 r2]. cbn [fst] in Hpromote. subst b2.
  cbn. split; [done|]. split; [done|]. split; [done|]. split; [|done].
  apply lookup_insert_eq.
Qed.

(** X14.  In a round over a dict of metrics, the count of an interface
    other than the active one goes up by one for an unhealthy reading, goes
    to 0 for a healthy reading when it was positive and stays as it is
    otherwise; without a reading it is not touched. *)
Theorem round_counts_each_reading (self : NetworkMonitor R) (e : Env)
    (metrics : Py.dict InterfaceMetrics) (k : string) :
  Py.dict_wf metrics ->
  k <> current_active (interface_manager self) ->
  let before := failure_count self k in
  let out := process_metrics THRESHOLDS metrics (self, e) in
  let after := failure_count out.2.1 k in
  (forall m, Py.dict_get k metrics = Some m ->
     is_interface_healthy THRESHOLDS (Some m) = false -> after = (before + 1)%Z)
  /\ (forall m, Py.dict_get k metrics = Some m ->
        is_interface_healthy THRESHOLDS (Some m) = true ->
        after = if (0 <? before)%Z then 0%Z else before)
  /\ (Py.dict_get k metrics = None ->
        consecutive_failures out.2.1 !! k = consecutive_failures self !! k).
Proof.
  intros Hwf Hk. cbv zeta. unfold failure_count at 1 3.
  rewrite (process_metrics_other_count THRESHOLDS metrics (self, e) k Hk).
  rewrite (counted_count THRESHOLDS metrics (self, e) k Hwf).
  unfold count_at_gate, count_after. cbn [fst].
  split; [|split].
  - intros m Hm Hbad. by rewrite Hm, Hbad.
  - intros m Hm Hgood. by rewrite Hm, Hgood.
  - by intros ->.
Qed.

(** X15.  A round calls [evaluate_failover_need] at most once and attempts
    at most one switch: either the router is asked for nothing, or it is
    asked exactly to set the distance of the active interface to 10 and
    then that of one other interface to 1. *)
Theorem round_attempts_one_switch_at_most (self : NetworkMonitor R) (e : Env)
    (metrics : Py.dict InterfaceMetrics) :
  let current := current_active (interface_manager self) in
  let out := process_metrics THRESHOLDS metrics (self, e) in
  exists delta,
    trace_since e out.2.2 delta
    /\ length (filter (fun ev => is_evaluation ev = true) delta) <= 1
    /\ (filter (fun ev => is_router_call ev = true) delta = []
        \/ exists target demoted promoted,
             target <> current
             /\ filter (fun ev => is_router_call ev = true) delta
                = [Call_update_routing_priority current 10 demoted;
                   Call_update_routing_priority target 1 promoted]).
Proof.
  cbv zeta. rewrite process_metrics_run. cbv zeta. cbn [fst snd].
  pose proof (counted_trace THRESHOLDS metrics (self, e)) as Hc.
  pose proof (tracked_all_events_log THRESHOLDS metrics (consecutive_failures self)) as Hlog.
  cbn [fst snd] in Hc.
  case_match.
  - pose proof (evaluate_failover_need_trace THRESHOLDS (interface_manager self)
                  (counted THRESHOLDS metrics (self, e)).2 metrics) as (d & Hd & Hdlog).
    destruct (filter_evaluation_call d Hdlog) as [Heval Hcalls].
    destruct (evaluate_failover_need _ _ _) as [[need target] [im2 e2]].
    cbn [fst snd] in Hd.
    pose proof (trace_since_trans _ _ _ _ _ Hc Hd) as Hce.
    destruct need; cbn [andb];
      [destruct (String.eqb_spec target (current_active (interface_manager self)))
         as [|Hother]; cbn [negb]|].
    + eexists. split; [exact Hce|]. rewrite !filter_app, Heval, Hcalls.
      rewrite (filter_evaluation_log _ Hlog), (filter_router_call_log _ Hlog).
      split; [done|by left].
    + rewrite perform_failover_run. cbv zeta.
      destruct (promote _ _ _) as [b2 r2].
      set (b1 := (demote (current_active (interface_manager self)) im2).1).
      set (closing := if b2 then Failover_successful target else Failover_failed target).
      set (lvl := if b2 then INFO else ERROR).
      destruct (filter_switch_events (current_active (interface_manager self)) target
                  b1 b2 closing lvl) as [Hseval Hscalls].
      eexists. split.
      { eapply trace_since_trans; [exact Hce|].
        instantiate (1 := [Log INFO (Performing_failover
                                       (current_active (interface_manager self)) target);
                           Call_update_routing_priority
                             (current_active (interface_manager self)) 10 b1;
                           Call_update_routing_priority target 1 b2;
                           Log lvl closing]).
        subst lvl closing. by destruct b2. }
      rewrite !filter_app, Heval, Hcalls, Hseval, Hscalls.
      rewrite (filter_evaluation_log _ Hlog), (filter_router_call_log _ Hlog).
      split; [done|]. right. by exists target, b1, b2.
    + eexists. split; [exact Hce|]. rewrite !filter_app, Heval, Hcalls.
      rewrite (filter_evaluation_log _ Hlog), (filter_router_call_log _ Hlog).
      split; [done|by left].
  - eexists. split; [exact Hc|].
    rewrite (filter_evaluation_log _ Hlog), (filter_router_call_log _ Hlog).
    split; [simpl; lia|by left].
Qed.

End Round.

(** The third round with the primary down, on a router that takes the
    switch. *)
Lemma gated_round_fails_over_witness :
  let st := run_rounds Config.THRESHOLDS (replicate 2 (Lab.primary_down 1000))
              (Lab.monitor Lab.primary_stopped, Lab.at_time 1000) in
  let im := interface_manager st.1 in
  let out := process_metrics Config.THRESHOLDS (Lab.primary_down 1000) (st.1, st.2) in
  let im' := interface_manager out.2.1 in
  current_active im' = other_interface im (current_active im)
  /\ failover_timestamp im' = Some (clock st.2 (reads st.2))
  /\ router im' = (promote (current_active im) (other_interface im (current_active im)) im).2
  /\ consecutive_failures out.2.1 !! current_active im = Some 0%Z
  /\ reads out.2.2 = S (reads st.2).
Proof.
  apply (gated_round_fails_over Config.THRESHOLDS
           (run_rounds Config.THRESHOLDS (replicate 2 (Lab.primary_down 1000))
              (Lab.monitor Lab.primary_stopped, Lab.at_time 1000)).1
           (run_rounds Config.THRESHOLDS (replicate 2 (Lab.primary_down 1000))
              (Lab.monitor Lab.primary_stopped, Lab.at_time 1000)).2
           (Lab.primary_down 1000) (Lab.down_reading "ether1" 1000)).
  - unfold Py.dict_wf, Py.dict_keys. apply (bool_decide_unpack _). vm_compute. exact I.
  - left. vm_compute. reflexivity.
  - vm_compute. discriminate.
  - vm_compute. reflexivity.
  - vm_compute. reflexivity.
  - vm_compute. discriminate.
  - vm_compute. reflexivity.
  - vm_compute. reflexivity.
Defined.

(** The secondary, not active, is healthy in a round on a fresh monitor. *)
Lemma round_counts_each_reading_witness :
  let self := Lab.monitor Lab.primary_stopped in
  let metrics := Lab.primary_down 1000 in
  let before := failure_count self "ether2" in
  let out := process_metrics Config.THRESHOLDS metrics (self, Lab.at_time 1000) in
  let after := failure_count out.2.1 "ether2" in
  (forall m, Py.dict_get "ether2" metrics = Some m ->
     is_interface_healthy Config.THRESHOLDS (Some m) = false -> after = (before + 1)%Z)
  /\ (forall m, Py.dict_get "ether2" metrics = Some m ->
        is_interface_healthy Config.THRESHOLDS (Some m) = true ->
        after = if (0 <? before)%Z then 0%Z else before)
  /\ (Py.dict_get "ether2" metrics = None ->
        consecutive_failures out.2.1 !! "ether2" = consecutive_failures self !! "ether2").
Proof.
  apply (round_counts_each_reading Config.THRESHOLDS
           (Lab.monitor Lab.primary_stopped) (Lab.at_time 1000)
           (Lab.primary_down 1000) "ether2").
  - unfold Py.dict_wf, Py.dict_keys. apply (bool_decide_unpack _). vm_compute. exact I.
  - vm_compute. discriminate.
Defined.

(* ===================================================================== *)
(** ** Reading the history *)
(* ===================================================================== *)

Section Readers.

Context {R : Type} `{RouterLink R}.
Variable PING_TARGETS : list string.

(** X16.  After [collect_metrics], [get_latest_metrics] gives for every
    interface of the round the reading the round returned for it (so the
    primary and the secondary interface have one), and for any other
    interface what it gave before. *)
Theorem latest_metrics_are_the_last_round (self : NetworkMonitor R) (e : Env) :
  let out := collect_metrics PING_TARGETS (self, e) in
  let im := interface_manager self in
  (forall i m, Py.dict_get i out.1 = Some m -> get_latest_metrics out.2.1 !! i = Some m)
  /\ (forall i, Py.dict_get i out.1 = None ->
        get_latest_metrics out.2.1 !! i = get_latest_metrics self !! i)
  /\ is_Some (get_latest_metrics out.2.1 !! primary_interface im)
  /\ is_Some (get_latest_metrics out.2.1 !! secondary_interface im).
Proof.
  cbv zeta.
  destruct (collect_metrics_frame PING_TARGETS self e) as (_ & Hp & Hs & Hhistory & _).
  assert (Hlatest : forall i m,
            Py.dict_get i (collect_metrics PING_TARGETS (self, e)).1 = Some m ->
            get_latest_metrics (collect_metrics PING_TARGETS (self, e)).2.1 !! i = Some m).
  { intros i m Hi. unfold get_latest_metrics. rewrite lookup_omap, Hhistory, Hi.
    cbn. apply last_n_snoc_last. lia. }
  split; [done|]. split; [|split].
  - intros i Hi. unfold get_latest_metrics. by rewrite !lookup_omap, Hhistory, Hi.
  - destruct Hp as [m Hm]. rewrite (Hlatest _ _ Hm). by eexists.
  - destruct Hs as [m Hm]. rewrite (Hlatest _ _ Hm). by eexists.
Qed.

(** X17.  [get_metrics_history] for a named interface: with a positive
    limit it returns the last [limit] entries of the history (all of them
    when there are fewer), oldest first; with limit 0 it returns the whole
    history; with a negative limit it drops that many of the oldest
    entries; for an interface without history it returns the empty list.
    Without a name it returns, interface by interface, the list it returns
    for the name. *)
Theorem get_metrics_history_limit (self : NetworkMonitor R) (name : string) (limit : Z) :
  name <> EmptyString ->
  let history := default [] (metrics_history self !! name) in
  let answer := get_metrics_history (Some name) limit self in
  ((0 < limit)%Z ->
     answer = inl (Py.last_n (Z.to_nat limit) history)
     /\ exists older recent_entries,
          answer = inl recent_entries
          /\ history = older ++ recent_entries
          /\ length recent_entries = min (Z.to_nat limit) (length history))
  /\ (limit = 0%Z -> answer = inl history)
  /\ ((limit < 0)%Z -> answer = inl (drop (Z.to_nat (- limit)) history))
  /\ (metrics_history self !! name = None -> answer = inl [])
  /\ (forall all_histories entries,
        get_metrics_history None limit self = inr all_histories ->
        is_Some (metrics_history self !! name) ->
        answer = inl entries ->
        all_histories !! name = Some entries).
Proof.
  intros Hname. cbv zeta. unfold get_metrics_history.
  destruct (String.eqb_spec name EmptyString) as [|_]; [done|].
  split; [|split; [|split; [|split]]].
  - intros Hpos. rewrite (recent_pos _ _ Hpos). split; [done|].
    exists (take (length (default [] (metrics_history self !! name)) - Z.to_nat limit)
              (default [] (metrics_history self !! name))),
           (Py.last_n (Z.to_nat limit) (default [] (metrics_history self !! name))).
    split; [done|]. split; [unfold Py.last_n; by rewrite take_drop|].
    apply last_n_length_min.
  - intros ->. by rewrite recent_zero.
  - intros Hneg. by rewrite (recent_neg _ _ Hneg).
  - intros ->. done.
  - intros all_histories entries [= <-] [h Hh] [= <-].
    by rewrite lookup_fmap, Hh.
Qed.

(** X18.  Calls of [collect_metrics] make the history of the primary and
    of the secondary interface one entry longer each time, up to 1000
    entries, where it stays. *)
Theorem history_grows_to_the_cap (n : nat) (self : NetworkMonitor R) (e : Env)
    (name : string) :
  let im := interface_manager self in
  name = primary_interface im \/ name = secondary_interface im ->
  let before := default [] (metrics_history self !! name) in
  length before <= 1000 ->
  let after := default [] (metrics_history (run_collect PING_TARGETS n (self, e)).1 !! name) in
  length after = min (length before + n) 1000.
Proof.
  cbv zeta. revert self e.
  induction n as [|n IH]; intros self e Hname Hlen; cbn [run_collect fst].
  - lia.
  - destruct (collect_metrics_frame PING_TARGETS self e)
      as (_ & Hp & Hs & Hhistory & Him & _).
    destruct (collect_metrics PING_TARGETS (self, e)) as [metrics [self1 e1]].
    cbn [fst snd] in *.
    assert (Hone : exists m, metrics_history self1 !! name
              = Some (Py.last_n 1000 (default [] (metrics_history self !! name) ++ [m]))).
    { destruct Hname as [-> | ->]; [destruct Hp as [m Hm]|destruct Hs as [m Hm]];
        exists m; by rewrite Hhistory, Hm. }
    destruct Hone as [m Hone].
    rewrite IH.
    + rewrite Hone, default_Some, last_n_length_min, length_app. cbn [length]. lia.
    + rewrite Him. done.
    + rewrite Hone, default_Some, last_n_length_min. lia.
Qed.

End Readers.

(** The last hundred of a full history of ether1. *)
Lemma get_metrics_history_limit_witness :
  let self := Lab.monitor_with_full_history Lab.both_routed in
  let history := default [] (metrics_history self !! "ether1") in
  let answer := get_metrics_history (Some "ether1") 100 self in
  ((0 < 100)%Z ->
     answer = inl (Py.last_n (Z.to_nat 100) history)
     /\ exists older recent_entries,
          answer = inl recent_entries
          /\ history = older ++ recent_entries
          /\ length recent_entries = min (Z.to_nat 100) (length history))
  /\ (100%Z = 0%Z -> answer = inl history)
  /\ ((100 < 0)%Z -> answer = inl (drop (Z.to_nat (- 100)) history))
  /\ (metrics_history self !! "ether1" = None -> answer = inl [])
  /\ (forall all_histories entries,
        get_metrics_history None 100 self = inr all_histories ->
        is_Some (metrics_history self !! "ether1") ->
        answer = inl entries ->
        all_histories !! "ether1" = Some entries).
Proof.
  apply (get_metrics_history_limit (Lab.monitor_with_full_history Lab.both_routed)
           "ether1" 100).
  discriminate.
Defined.

(** Three calls on a fresh monitor: three entries for ether1. *)
Lemma history_grows_to_the_cap_witness :
  let self := Lab.monitor Lab.both_routed in
  length (default [] (metrics_history
            (run_collect Config.PING_TARGETS 3 (self, Lab.at_time 1000)).1 !! "ether1"))
  = min (length (default [] (metrics_history self !! "ether1")) + 3) 1000.
Proof.
  apply (history_grows_to_the_cap Config.PING_TARGETS 3
           (Lab.monitor Lab.both_routed) (Lab.at_time 1000) "ether1").
  - left. reflexivity.
  - vm_compute. lia.
Defined.

(* ===================================================================== *)
(** ** A failed switch on the router *)
(* ===================================================================== *)

(** X19.  When the router has no route through the target interface while
    the priority of the old interface could be lowered, [perform_failover]
    returns [False] and keeps current_active and failover_timestamp, but
    the router is not as it was: every route through the old interface now
    has distance 10. *)
Theorem failed_switch_keeps_the_demotion
    (im : InterfaceManager Mikrotik.MikrotikClient) (e : Env)
    (from_interface to_interface : string) (rows : list row) :
  Mikrotik.route_rows (Mikrotik.device (router im)) = Some rows ->
  Forall (fun r => Mikrotik.routes_through to_interface r = false) rows ->
  (demote from_interface im).1 = true ->
  let out := perform_failover from_interface to_interface (im, e) in
  out.1 = false
  /\ current_active out.2.1 = current_active im
  /\ failover_timestamp out.2.1 = failover_timestamp im
  /\ exists rows',
       Mikrotik.route_rows (Mikrotik.device (router out.2.1)) = Some rows'
       /\ Forall2 (rewritten "10") rows rows'
       /\ Exists (fun r => Mikrotik.routes_through from_interface r = true) rows
       /\ Forall (fun r' : row =>
            Mikrotik.routes_through from_interface r' = true ->
            r' !! "distance" = Some "10") rows'.
Proof.
  intros Hrows Hnone Hdemote. cbv zeta. rewrite perform_failover_run. cbv zeta.
  unfold promote. unfold demote in *.
  cbn [update_routing_priority Mikrotik.router_link] in *.
  destruct (Mikrotik.update_routing_priority from_interface 10 (router im))
    as [b1 c1] eqn:Hrun.
  cbn [fst snd] in *. subst b1.
  destruct (update_routing_priority_done _ _ _ _ Hrun)
    as (rows0 & rows' & Hrows0 & -> & Hrw & Hsome & Hset).
  rewrite Hrows in Hrows0. injection Hrows0 as <-.
  rewrite (update_routing_priority_no_route to_interface 1 _ rows'); cycle 1.
  { done. }
  { done. }
  { by eapply rewritten_keeps_no_route. }
  cbn. split; [done|]. split; [done|]. split; [done|]. by exists rows'.
Qed.

(** The router has a default route through ether1 only. *)
Lemma failed_switch_keeps_the_demotion_witness :
  let im := Lab.manager Lab.primary_stopped_secondary_unrouted in
  let out := perform_failover "ether1" "ether2" (im, Lab.at_time 1000) in
  Lab.route_table (router out.2.1) = [(Some "ether1", Some "10")]
  /\ out.1 = false
  /\ current_active out.2.1 = current_active im
  /\ failover_timestamp out.2.1 = failover_timestamp im
  /\ exists rows',
       Mikrotik.route_rows (Mikrotik.device (router out.2.1)) = Some rows'
       /\ Forall2 (rewritten "10") [Lab.route "*1" "ether1"] rows'
       /\ Exists (fun r => Mikrotik.routes_through "ether1" r = true)
            [Lab.route "*1" "ether1"]
       /\ Forall (fun r' : row =>
            Mikrotik.routes_through "ether1" r' = true ->
            r' !! "distance" = Some "10") rows'.
Proof.
  split; [vm_compute; reflexivity|].
  apply (failed_switch_keeps_the_demotion
           (Lab.manager Lab.primary_stopped_secondary_unrouted) (Lab.at_time 1000)
           "ether1" "ether2" [Lab.route "*1" "ether1"]).
  - reflexivity.
  - repeat constructor.
  - vm_compute. reflexivity.
Defined.

(* ===================================================================== *)
(** ** The monitoring loop *)
(* ===================================================================== *)

Section Loop.

Context {R : Type} `{RouterLink R}.
Variable PING_TARGETS : list string.
Variable THRESHOLDS : Config.Thresholds.

(** X20.  A monitor fresh from its constructor, over a manager fresh from
    its own, keeps through any number of passes of the monitoring loop
    (collect_metrics, then process_metrics): the configured interface
    names, an active interface that is one of the two, failure counts that
    are not negative, and histories of at most 1000 entries. *)
Theorem monitoring_loop_keeps_invariants (n : nat) (INTERFACES : Config.Interfaces)
    (router_client : R) (store : option Persistence.MetricsPersistence) (e : Env) :
  let self := NetworkMonitor_init (InterfaceManager_init INTERFACES router_client) store in
  let st := run_monitoring THRESHOLDS PING_TARGETS n (self, e) in
  primary_interface (interface_manager st.1) = Config.primary INTERFACES
  /\ secondary_interface (interface_manager st.1) = Config.secondary INTERFACES
  /\ active_is_configured (interface_manager st.1)
  /\ counts_non_negative st.1
  /\ bounded (metrics_history st.1).
Proof.
  cbv zeta.
  assert (Hstart : loop_invariant (Config.primary INTERFACES, Config.secondary INTERFACES)
                     (NetworkMonitor_init
                        (InterfaceManager_init INTERFACES router_client) store)).
  { unfold loop_invariant, active_is_configured, counts_non_negative, bounded. cbn.
    repeat split; [by left|apply map_Forall_empty|apply map_Forall_empty]. }
  revert Hstart.
  generalize (NetworkMonitor_init (InterfaceManager_init INTERFACES router_client) store).
  revert e. induction n as [|n IH]; intros e self Hinv; [exact Hinv|].
  cbn [run_monitoring].
  pose proof (monitoring_round_invariant PING_TARGETS THRESHOLDS _ self e Hinv) as Hnext.
  destruct (monitoring_round PING_TARGETS THRESHOLDS (self, e)) as [[] [self1 e1]].
  by apply IH.
Qed.

End Loop.

(* ===================================================================== *)
(** ** When a switch goes through *)
(* ===================================================================== *)

(** X21.  On a client with an api and a device that lists its routes,
    [update_routing_priority] returns [True] exactly when at least one
    route goes through the interface and every such route has an id that
    the device lets be updated. *)
Theorem update_routing_priority_succeeds_iff (interface_name : string)
    (new_distance : Z) (c : Mikrotik.MikrotikClient) (rows : list row) :
  Mikrotik.api c = true ->
  Mikrotik.route_rows (Mikrotik.device c) = Some rows ->
  let through := filter (fun r => Mikrotik.routes_through interface_name r) rows in
  (Mikrotik.update_routing_priority interface_name new_distance c).1 = true
  <-> through <> []
      /\ Forall (fun t : row =>
           exists id, t !! ".id" = Some id
                      /\ Mikrotik.route_writable (Mikrotik.device c) id = true) through.
Proof.
  intros Hapi Hrows. cbv zeta.
  unfold Mikrotik.update_routing_priority, Mikrotik.ensure_api. rewrite Hapi, Hrows.
  destruct (filter _ rows) as [|t targets] eqn:Hfilter.
  - split; [done|]. by intros [? _].
  - rewrite <- (update_each_succeeds (t :: targets) new_distance (Mikrotik.device c)).
    destruct (Mikrotik.update_each (t :: targets) new_distance (Mikrotik.device c)).
    cbn [fst]. split; [done|by intros [_ ?]].
Qed.

Lemma update_routing_priority_succeeds_iff_witness :
  let c := (Mikrotik.connect Lab.both_routed).2 in
  let through :=
    filter (fun r => Mikrotik.routes_through "ether2" r)
      [Lab.route "*1" "ether1"; Lab.route "*2" "ether2"] in
  (Mikrotik.update_routing_priority "ether2" 1 c).1 = true
  <-> through <> []
      /\ Forall (fun t : row =>
           exists id, t !! ".id" = Some id
                      /\ Mikrotik.route_writable (Mikrotik.device c) id = true) through.
Proof.
  apply (update_routing_priority_succeeds_iff "ether2" 1
           (Mikrotik.connect Lab.both_routed).2
           [Lab.route "*1" "ether1"; Lab.route "*2" "ether2"]); reflexivity.
Defined.

Section SafeSwitch.

Context {R : Type} `{RouterLink R}.
Variable THRESHOLDS : Config.Thresholds.

(** X22.  A round of [process_metrics] over a dict of metrics changes the
    active interface only to an interface whose reading in that round is
    healthy, only when the count of the interface that was active has
    reached the threshold, and then failover_timestamp is the last reading
    of the clock taken in the round and the count of the interface that was
    active is 0. *)
Theorem active_changes_only_to_a_healthy_interface (self : NetworkMonitor R) (e : Env)
    (metrics : Py.dict InterfaceMetrics) :
  Py.dict_wf metrics ->
  let current := current_active (interface_manager self) in
  let out := process_metrics THRESHOLDS metrics (self, e) in
  let im' := interface_manager out.2.1 in
  current_active im' <> current ->
  is_interface_healthy THRESHOLDS (Py.dict_get (current_active im') metrics) = true
  /\ (Config.consecutive_failures THRESHOLDS <= count_at_gate THRESHOLDS self metrics current)%Z
  /\ failover_timestamp im' = Some (clock e (pred (reads out.2.2)))
  /\ consecutive_failures out.2.1 !! current = Some 0%Z.
Proof.
  intros Hwf. cbv zeta. rewrite process_metrics_run. cbv zeta. cbn [fst snd].
  unfold gate. rewrite (counted_count THRESHOLDS metrics (self, e) _ Hwf). cbn [fst].
  pose proof (evaluate_failover_need_manager THRESHOLDS (interface_manager self)
                (counted THRESHOLDS metrics (self, e)).2 metrics) as Him.
  pose proof (evaluate_failover_need_safe THRESHOLDS (interface_manager self)
                (counted THRESHOLDS metrics (self, e)).2 metrics) as Hsafe.
  pose proof (evaluate_failover_need_clock THRESHOLDS (interface_manager self)
                (counted THRESHOLDS metrics (self, e)).2 metrics) as Hclock.
  destruct (Py.dict_get (current_active (interface_manager self)) metrics) as [m|] eqn:Hget.
  - destruct (Z.leb_spec (Config.consecutive_failures THRESHOLDS)
                (count_at_gate THRESHOLDS self metrics
                   (current_active (interface_manager self)))) as [Hhigh|Hlow];
      [|done].
    destruct (evaluate_failover_need _ _ _) as [[need target] [im2 e2]].
    cbn [fst snd] in *. subst im2.
    case_match; [|done].
    rewrite perform_failover_run. cbv zeta.
    destruct (promote _ _ _) as [[] r2]; cbn; [|done].
    intros _. destruct need; [|done].
    rewrite Hclock. split; [by apply Hsafe|]. split; [done|]. split; [done|].
    apply lookup_insert_eq.
  - destruct (consecutive_failures self !! current_active (interface_manager self))
      as [n|] eqn:Hn; [|done].
    assert (Hgate : count_at_gate THRESHOLDS self metrics
                      (current_active (interface_manager self)) = n).
    { unfold count_at_gate, failure_count. by rewrite Hget, Hn. }
    destruct (Z.leb_spec (Config.consecutive_failures THRESHOLDS) n) as [Hhigh|Hlow];
      [|done].
    destruct (evaluate_failover_need _ _ _) as [[need target] [im2 e2]].
    cbn [fst snd] in *. subst im2.
    case_match; [|done].
    rewrite perform_failover_run. cbv zeta.
    destruct (promote _ _ _) as [[] r2]; cbn; [|done].
    intros _. destruct need; [|done].
    rewrite Hclock, Hgate. split; [by apply Hsafe|]. split; [done|]. split; [done|].
    apply lookup_insert_eq.
Qed.

End SafeSwitch.

(** The third round with the primary down: ether2 becomes active. *)
Lemma active_changes_only_to_a_healthy_interface_witness :
  let st := run_rounds Config.THRESHOLDS (replicate 2 (Lab.primary_down 1000))
              (Lab.monitor Lab.primary_stopped, Lab.at_time 1000) in
  let metrics := Lab.primary_down 1000 in
  let out := process_metrics Config.THRESHOLDS metrics (st.1, st.2) in
  let im' := interface_manager out.2.1 in
  current_active im' = "ether2"
  /\ is_interface_healthy Config.THRESHOLDS (Py.dict_get (current_active im') metrics) = true
  /\ (Config.consecutive_failures Config.THRESHOLDS
      <= count_at_gate Config.THRESHOLDS st.1 metrics
           (current_active (interface_manager st.1)))%Z
  /\ failover_timestamp im' = Some (clock st.2 (pred (reads out.2.2)))
  /\ consecutive_failures out.2.1 !! current_active (interface_manager st.1) = Some 0%Z.
Proof.
  split; [vm_compute; reflexivity|].
  apply (active_changes_only_to_a_healthy_interface Config.THRESHOLDS
           (run_rounds Config.THRESHOLDS (replicate 2 (Lab.primary_down 1000))
              (Lab.monitor Lab.primary_stopped, Lab.at_time 1000)).1
           (run_rounds Config.THRESHOLDS (replicate 2 (Lab.primary_down 1000))
              (Lab.monitor Lab.primary_stopped, Lab.at_time 1000)).2
           (Lab.primary_down 1000)).
  - unfold Py.dict_wf, Py.dict_keys. apply (bool_decide_unpack _). vm_compute. exact I.
  - vm_compute. discriminate.
Defined.
